(** * clue-part-duo: the player module (src/player.py)

    A shallow embedding of [Hand], [SolutionMatcher], [LogBook], [Player]
    and [ComputerPlayer], and the properties of the knowledge-and-decision
    engine stated over it.

    Conventions.
    - A Python method that mutates [self] is a computation in the monad
      [M S A := S -> Result A * S]: it returns a value or raises, and in
      both cases hands back the object as it stands at that point (an
      exception does not undo the assignments made before it).
    - [None] is [None] of an option type.
    - The dict [LogBook.log_book] is a list of entries in insertion order,
      since [LogBook.get] returns the cards in the order of [dict.items()]. *)

From Stdlib Require Import ZArith String.
From stdpp Require Import base decidable option list.

Local Open Scope Z_scope.

(** ** Python exceptions and results *)

Inductive PyExc : Type :=
  | KeyError
  | IndexError
  | OverflowError
  | AttributeError
  | TypeError
  | NameError (name : string)
  | Exception (msg : string).

Inductive Result (A : Type) : Type :=
  | Ok (a : A)
  | Raise (e : PyExc).
Arguments Ok {A} a.
Arguments Raise {A} e.

#[global] Instance Result_ret : MRet Result := fun A a => Ok a.
#[global] Instance Result_bind : MBind Result := fun A B k m =>
  match m with
  | Ok a => k a
  | Raise e => Raise e
  end.

(** A method of an object of class [S]. *)
Definition M (S A : Type) : Type := S -> Result A * S.

#[global] Instance M_ret {S} : MRet (M S) := fun A a s => (Ok a, s).
#[global] Instance M_bind {S} : MBind (M S) := fun A B k m s =>
  match m s with
  | (Ok a, s') => k a s'
  | (Raise e, s') => (Raise e, s')
  end.

Definition raise {S A} (e : PyExc) : M S A := fun s => (Raise e, s).
Definition modify {S} (f : S -> S) : M S unit := fun s => (Ok tt, f s).
Definition lift {S A} (r : Result A) : M S A := fun s => (r, s).

(** The object after the call, whether the call returned or raised. *)
Definition exec {S A} (m : M S A) (s : S) : S := snd (m s).
(** What the call returned or raised. *)
Definition eval {S A} (m : M S A) (s : S) : Result A := fst (m s).

(** ** Python lists: slices *)

(** [l[:stop]]; a negative [stop] counts from the end. *)
Definition slice_to {A} (l : list A) (stop : Z) : list A :=
  if decide (0 <= stop) then take (Z.to_nat stop) l
  else take (length l - Z.to_nat (- stop))%nat l.

(** [l[start:]]; a negative [start] counts from the end. *)
Definition slice_from {A} (l : list A) (start : Z) : list A :=
  if decide (0 <= start) then drop (Z.to_nat start) l
  else drop (length l - Z.to_nat (- start))%nat l.

(** ** numpy arrays of one dimension

    Only the values 0 and 1 are ever stored, which [float64] and [int32]
    both represent exactly; the element type is kept as a tag. *)

Inductive dtype : Type := float64 | int32.

Record ndarray : Type := mk_ndarray { nd_dtype : dtype; nd_data : list Z }.

Definition np_zeros (n : nat) (dt : dtype) : ndarray := mk_ndarray dt (replicate n 0).
Definition np_ones (n : nat) (dt : dtype) : ndarray := mk_ndarray dt (replicate n 1).

(** A Python int that converts to a C long, taken to be of 64 bits. *)
Definition fits_C_long (i : Z) : Prop := - 2 ^ 63 <= i < 2 ^ 63.

#[global] Instance fits_C_long_dec i : Decision (fits_C_long i).
Proof. unfold fits_C_long. apply _. Defined.

(** [a[i] = v]: the index is first converted to a C long, which raises
    OverflowError for a Python int that does not fit; then a negative
    index counts from the end, and an index outside [-n, n) raises
    IndexError. *)
Definition np_setitem (a : ndarray) (i : Z) (v : Z) : Result ndarray :=
  let n := Z.of_nat (length (nd_data a)) in
  if decide (fits_C_long i) then
    if decide (0 <= i < n) then
      Ok (mk_ndarray (nd_dtype a) (<[Z.to_nat i := v]> (nd_data a)))
    else if decide (- n <= i < 0) then
      Ok (mk_ndarray (nd_dtype a) (<[Z.to_nat (n + i) := v]> (nd_data a)))
    else Raise IndexError
  else Raise OverflowError.

(** ** Cards (module definitions) *)

Inductive PlayerAction : Type := ACCUSATION | GUESS | MOVE.

Inductive CardType : Type := WEAPON | ROOM | CHARACTER.

(** Modelled from the spec: the module [definitions] is not among the
    sources.  The enumerations [Weapon], [Character] and [Room] are taken
    with their members identified by the integer [member.value]. *)
Inductive Weapon : Type := WeaponOf (v : Z).
Inductive Character : Type := CharacterOf (v : Z).
Inductive Room : Type := RoomOf (v : Z).

(** What the attribute [Card.value] can hold. *)
Inductive CardValue : Type :=
  | VWeapon (w : Weapon)
  | VCharacter (c : Character)
  | VRoom (r : Room).

(** [member.value] *)
Definition enum_value (v : CardValue) : Z :=
  match v with
  | VWeapon (WeaponOf n) => n
  | VCharacter (CharacterOf n) => n
  | VRoom (RoomOf n) => n
  end.

(** Modelled from the spec: class [Card] of the module [definitions], a
    value-equal pair of an enumeration member and a category,
    constructed as [Card(value, type)]. *)
Record Card : Type := mkCard { value : CardValue; type : CardType }.

#[global] Instance CardType_eq_dec : EqDecision CardType.
Proof. solve_decision. Defined.
#[global] Instance Weapon_eq_dec : EqDecision Weapon.
Proof. solve_decision. Defined.
#[global] Instance Character_eq_dec : EqDecision Character.
Proof. solve_decision. Defined.
#[global] Instance Room_eq_dec : EqDecision Room.
Proof. solve_decision. Defined.
#[global] Instance CardValue_eq_dec : EqDecision CardValue.
Proof. solve_decision. Defined.
#[global] Instance Card_eq_dec : EqDecision Card.
Proof. solve_decision. Defined.

Definition weapon_card (n : Z) : Card := mkCard (VWeapon (WeaponOf n)) WEAPON.
Definition character_card (n : Z) : Card := mkCard (VCharacter (CharacterOf n)) CHARACTER.
Definition room_card (n : Z) : Card := mkCard (VRoom (RoomOf n)) ROOM.

(** Modelled from the spec: [Deck.static_deck] of the module
    [definitions]: 6 weapons, 6 characters and 9 rooms, the members of
    each enumeration numbered from 1. *)
Definition static_deck : list Card :=
  map weapon_card [1; 2; 3; 4; 5; 6] ++
  map character_card [1; 2; 3; 4; 5; 6] ++
  map room_card [1; 2; 3; 4; 5; 6; 7; 8; 9].

(** Modelled from the spec: class [Solution] of the module [definitions],
    a mutable triple of slots, each unset ([None]) or a card;
    [is_complete] holds when the three slots are set, [is_empty] when
    none is. *)
Module Solution.
Record t : Type := mk {
  weapon : option Card;
  character : option Card;
  room : option Card
}.

Definition set_weapon (c : option Card) (s : t) : t := mk c (character s) (room s).
Definition set_character (c : option Card) (s : t) : t := mk (weapon s) c (room s).
Definition set_room (c : option Card) (s : t) : t := mk (weapon s) (character s) c.

Definition is_complete (s : t) : bool :=
  bool_decide (weapon s <> None) && bool_decide (character s <> None)
  && bool_decide (room s <> None).

Definition is_empty (s : t) : bool :=
  bool_decide (weapon s = None) && bool_decide (character s = None)
  && bool_decide (room s = None).

(** The slot of a category. *)
Definition slot (k : CardType) (s : t) : option Card :=
  match k with
  | WEAPON => weapon s
  | CHARACTER => character s
  | ROOM => room s
  end.

Definition set_slot (k : CardType) (c : option Card) (s : t) : t :=
  match k with
  | WEAPON => set_weapon c s
  | CHARACTER => set_character c s
  | ROOM => set_room c s
  end.
End Solution.

(** ** class Hand *)

Module Hand.
Record t : Type := mk {
  all : list Card;
  weapons : list Card;
  rooms : list Card;
  characters : list Card
}.

(** [Hand()] *)
Definition init : t := mk [] [] [] [].

Definition add (card : Card) (self : t) : t :=
  let self := mk (all self ++ [card]) (weapons self) (rooms self) (characters self) in
  match type card with
  | WEAPON => mk (all self) (weapons self ++ [card]) (rooms self) (characters self)
  | ROOM => mk (all self) (weapons self) (rooms self ++ [card]) (characters self)
  | CHARACTER => mk (all self) (weapons self) (rooms self) (characters self ++ [card])
  end.

(** [list.index] raises ValueError when the card is absent, which
    [has_card] turns into [False]; [None.type] raises AttributeError,
    which it does not catch. *)
Definition has_card (self : t) (card : option Card) : Result bool :=
  match card with
  | None => Raise AttributeError
  | Some c =>
      match type c with
      | WEAPON => Ok (bool_decide (c ∈ weapons self))
      | ROOM => Ok (bool_decide (c ∈ rooms self))
      | CHARACTER => Ok (bool_decide (c ∈ characters self))
      end
  end.

(** The hand a player holds after being given the cards [cs] in turn. *)
Definition of_cards (cs : list Card) : t := foldl (fun h c => add c h) init cs.
End Hand.

(** ** class SolutionMatcher *)

Module SolutionMatcher.
Definition compare_to_hand (hand : Hand.t) (solution : Solution.t) : Result Solution.t :=
  let matches := Solution.mk None None None in
  b ← Hand.has_card hand (Solution.weapon solution);
  let matches := if b : bool then Solution.set_weapon (Solution.weapon solution) matches else matches in
  b ← Hand.has_card hand (Solution.room solution);
  let matches := if b : bool then Solution.set_room (Solution.room solution) matches else matches in
  b ← Hand.has_card hand (Solution.character solution);
  let matches := if b : bool then Solution.set_character (Solution.character solution) matches else matches in
  mret matches.
End SolutionMatcher.

(** ** Python dicts keyed by cards

    Entries are kept in insertion order.  [d[k] = v] overwrites the value
    of an existing key in place and appends a new key at the end;
    [d[k]] raises KeyError for a missing key. *)

Fixpoint dict_set (k : Card) (v : bool) (d : list (Card * bool)) : list (Card * bool) :=
  match d with
  | [] => [(k, v)]
  | (k', v') :: d' =>
      if decide (k = k') then (k', v) :: d' else (k', v') :: dict_set k v d'
  end.

Fixpoint dict_get (k : Card) (d : list (Card * bool)) : option bool :=
  match d with
  | [] => None
  | (k', v') :: d' => if decide (k = k') then Some v' else dict_get k d'
  end.

Definition dict_getitem (d : list (Card * bool)) (k : option Card) : Result bool :=
  match k with
  | None => Raise KeyError
  | Some c => match dict_get c d with Some v => Ok v | None => Raise KeyError end
  end.

(** ** class LogBook *)

Module LogBook.
Record t : Type := mk {
  log_book : list (Card * bool);
  weapons : ndarray;
  characters : ndarray;
  rooms : ndarray;
  solution : Solution.t
}.

Definition set_log_book (d : list (Card * bool)) (self : t) : t :=
  mk d (weapons self) (characters self) (rooms self) (solution self).
Definition set_weapons (a : ndarray) (self : t) : t :=
  mk (log_book self) a (characters self) (rooms self) (solution self).
Definition set_characters (a : ndarray) (self : t) : t :=
  mk (log_book self) (weapons self) a (rooms self) (solution self).
Definition set_rooms (a : ndarray) (self : t) : t :=
  mk (log_book self) (weapons self) (characters self) a (solution self).
Definition set_solution (s : Solution.t) (self : t) : t :=
  mk (log_book self) (weapons self) (characters self) (rooms self) s.

(** [LogBook()], over the deck [Deck.static_deck]. *)
Definition init (deck : list Card) : t :=
  mk (foldl (fun d card => dict_set card false d) [] deck)
     (np_zeros 6 float64) (np_zeros 6 float64) (np_zeros 9 float64)
     (Solution.mk None None None).

Definition get (card_type : CardType) (known : bool) (self : t) : list Card :=
  (filter (fun entry : Card * bool => type entry.1 = card_type /\ entry.2 = known)
          (log_book self)).*1.

Definition find_solution (card_type : CardType) : M t unit := fun self =>
  if Solution.is_complete (solution self) then (Ok tt, self)
  else
    let self :=
      if bool_decide (card_type = CHARACTER)
         && bool_decide (Solution.character (solution self) = None) then
        let remaining := get CHARACTER false self in
        if bool_decide (length remaining = 1%nat) then
          set_solution (Solution.set_character (remaining !! 0%nat) (solution self)) self
        else self
      else self in
    let self :=
      if bool_decide (card_type = ROOM)
         && bool_decide (Solution.room (solution self) = None) then
        let remaining := get ROOM false self in
        if bool_decide (length remaining = 1%nat) then
          set_solution (Solution.set_room (remaining !! 0%nat) (solution self)) self
        else self
      else self in
    let self :=
      if bool_decide (card_type = WEAPON)
         && bool_decide (Solution.weapon (solution self) = None) then
        let remaining := get WEAPON false self in
        if bool_decide (length remaining = 1%nat) then
          set_solution (Solution.set_weapon (remaining !! 0%nat) (solution self)) self
        else self
      else self in
    (Ok tt, self).

(** [self.<array>[index] = v] for the array of a category *)
Definition setitem_weapons (index v : Z) : M t unit := fun self =>
  match np_setitem (weapons self) index v with
  | Ok a => (Ok tt, set_weapons a self)
  | Raise e => (Raise e, self)
  end.
Definition setitem_characters (index v : Z) : M t unit := fun self =>
  match np_setitem (characters self) index v with
  | Ok a => (Ok tt, set_characters a self)
  | Raise e => (Raise e, self)
  end.
Definition setitem_rooms (index v : Z) : M t unit := fun self =>
  match np_setitem (rooms self) index v with
  | Ok a => (Ok tt, set_rooms a self)
  | Raise e => (Raise e, self)
  end.

Definition log (card : option Card) : M t unit :=
  match card with
  | None => mret tt
  | Some card =>
      modify (fun self => set_log_book (dict_set card true (log_book self)) self);;
      find_solution (type card);;
      let index := enum_value (value card) - 1 in
      match type card with
      | WEAPON => setitem_weapons index 1
      | CHARACTER => setitem_characters index 1
      | ROOM => setitem_rooms index 1
      end
  end.

Definition has_solution (self : t) : bool := Solution.is_complete (solution self).

Definition is_room_known (room : Room) (self : t) : Result bool :=
  let room_card := mkCard (VRoom room) ROOM in
  dict_getitem (log_book self) (Some room_card).

(** [solution.character.value.value - 1]; AttributeError on [None] *)
Definition character_index (solution : Solution.t) : Result Z :=
  match Solution.character solution with
  | None => Raise AttributeError
  | Some c => Ok (enum_value (value c) - 1)
  end.

(** [self.solution.<slot> is None and not self.log_book[card]]: the
    dict is read only when the slot is unset. *)
Definition adoptable (slot card : option Card) : M t bool := fun self =>
  match slot with
  | Some _ => (Ok false, self)
  | None => (b ← dict_getitem (log_book self) card; mret (negb b), self)
  end.

(** The three [if] statements of [found_solution], in turn. *)
Definition found_solution_character (solution : Solution.t) : M t unit :=
  b ← (fun self => adoptable (Solution.character (LogBook.solution self))
                            (Solution.character solution) self);
  if b : bool then
    modify (fun self => set_solution
      (Solution.set_character (Solution.character solution) (LogBook.solution self)) self);;
    modify (set_characters (np_ones 6 int32));;
    index ← lift (character_index solution);
    setitem_characters index 0
  else mret tt.

Definition found_solution_weapon (solution : Solution.t) : M t unit :=
  b ← (fun self => adoptable (Solution.weapon (LogBook.solution self))
                            (Solution.weapon solution) self);
  if b : bool then
    modify (fun self => set_solution
      (Solution.set_weapon (Solution.weapon solution) (LogBook.solution self)) self);;
    modify (set_weapons (np_ones 6 int32));;
    index ← lift (character_index solution);
    setitem_weapons index 0
  else mret tt.

Definition found_solution_room (solution : Solution.t) : M t unit :=
  b ← (fun self => adoptable (Solution.room (LogBook.solution self))
                            (Solution.room solution) self);
  if b : bool then
    modify (fun self => set_solution
      (Solution.set_room (Solution.room solution) (LogBook.solution self)) self);;
    modify (set_rooms (np_ones 6 int32));;
    index ← lift (character_index solution);
    setitem_rooms index 0
  else mret tt.

Definition found_solution (solution : Solution.t) : M t unit :=
  found_solution_character solution;;
  found_solution_weapon solution;;
  found_solution_room solution.
End LogBook.

(** ** Paths (module paths) and the random source *)

(** Modelled from the spec: the steps a [RoomPath] holds, a free space
    [Space] with its [row] and [col] or a room entry [RoomPosition] with
    its [room]; [OtherStep] is any object that is an instance of neither. *)
Inductive Step : Type :=
  | Space (row col : Z)
  | RoomPosition (room : Room)
  | OtherStep.

(** Modelled from the spec: class [RoomPath] of the module [paths], with
    the attributes [room], [path] and [distance]. *)
Module RoomPath.
Record t : Type := mk {
  room : Room;
  path : list Step;
  distance : Z
}.
End RoomPath.

(** The module [paths] is not among the sources; what the player uses of
    it is taken as a parameter: the distance that the constructor
    [RoomPath(room, path)] computes, and the two path queries of [Board],
    which receive the list that [_get_unknown_rooms] builds. *)
Record Paths : Type := mkPaths {
  path_distance : Room -> list Step -> Z;
  room_paths_from_position : Z -> Z -> list CardValue -> list RoomPath.t;
  room_paths_from_room : Room -> list CardValue -> list RoomPath.t
}.

(** [RoomPath(room, path)] *)
Definition RoomPath_new (P : Paths) (room : Room) (path : list Step) : RoomPath.t :=
  RoomPath.mk room path (path_distance P room path).

(** [random.choice(seq)], the draw [rnd] being supplied by the caller;
    IndexError on an empty sequence. *)
Definition random_choice {A} (rnd : nat) (seq : list A) : Result A :=
  match seq !! (rnd `mod` length seq)%nat with
  | Some x => Ok x
  | None => Raise IndexError
  end.

(** ** class Player and class ComputerPlayer

    One record holds the attributes of both; [cls] is the class of the
    object and selects the method where [ComputerPlayer] overrides
    [Player].  [remaining_path] is an attribute of [ComputerPlayer] only
    and is not read by a method of [Player]. *)

Module Player.
Inductive class : Type := PlayerClass | ComputerPlayerClass.

Record t : Type := mk {
  cls : class;
  character : option Character;
  position : option (Z * Z);
  hand : Hand.t;
  log_book : LogBook.t;
  room : option Room;
  remaining_path : option RoomPath.t
}.

Definition set_position (x : option (Z * Z)) (self : t) : t :=
  mk (cls self) (character self) x (hand self) (log_book self) (room self) (remaining_path self).
Definition set_room (x : option Room) (self : t) : t :=
  mk (cls self) (character self) (position self) (hand self) (log_book self) x (remaining_path self).
Definition set_remaining_path (x : option RoomPath.t) (self : t) : t :=
  mk (cls self) (character self) (position self) (hand self) (log_book self) (room self) x.
Definition set_hand (x : Hand.t) (self : t) : t :=
  mk (cls self) (character self) (position self) x (log_book self) (room self) (remaining_path self).
Definition set_log_book (x : LogBook.t) (self : t) : t :=
  mk (cls self) (character self) (position self) (hand self) x (room self) (remaining_path self).

(** [self.log_book.<method>(...)]: the method runs on the LogBook the
    player holds, which keeps what the method assigned. *)
Definition on_log_book {A} (m : M LogBook.t A) : M t A := fun self =>
  let '(r, lb) := m (log_book self) in (r, set_log_book lb self).

(** [reset], the deck being [Deck.static_deck]; [remaining_path] is not
    among the attributes it assigns. *)
Definition reset (deck : list Card) (self : t) : t :=
  mk (cls self) None None Hand.init (LogBook.init deck) None (remaining_path self).

Definition give_card (card : Card) : M t unit :=
  modify (fun self => set_hand (Hand.add card (hand self)) self);;
  on_log_book (LogBook.log (Some card)).

Definition _log_guess_match (guess : Solution.t) (match_ : option Solution.t)
    (skipped_count : Z) : M t unit :=
  match match_ with
  | None => on_log_book (LogBook.found_solution guess)
  | Some match_ =>
      on_log_book (LogBook.log (Solution.character match_));;
      on_log_book (LogBook.log (Solution.weapon match_));;
      on_log_book (LogBook.log (Solution.room match_))
  end.

Definition show_card (self : t) (guess : Solution.t) : Result (option Solution.t) :=
  match_ ← SolutionMatcher.compare_to_hand (hand self) guess;
  if Solution.is_empty match_ then mret None
  else
    let match_ :=
      if bool_decide (Solution.character match_ <> None) then
        Solution.set_room None (Solution.set_weapon None match_)
      else if bool_decide (Solution.weapon match_ <> None) then
        Solution.set_room None (Solution.set_character None match_)
      else
        Solution.set_character None (Solution.set_weapon None match_) in
    mret (Some match_).

(** [Player.enter_room] *)
Definition Player_enter_room (room : Room) (self : t) : t :=
  set_position None (set_room (Some room) self).

(** [ComputerPlayer.enter_room] *)
Definition ComputerPlayer_enter_room (room : Room) (self : t) : t :=
  set_remaining_path None (Player_enter_room room self).

(** [self.enter_room(room)] *)
Definition enter_room (room : Room) (self : t) : t :=
  match cls self with
  | PlayerClass => Player_enter_room room self
  | ComputerPlayerClass => ComputerPlayer_enter_room room self
  end.

(** [ComputerPlayer.should_guess_current_room].  [Card(None, ROOM)] is
    no key of the dict, so the lookup fails when the player is in no
    room. *)
Definition ComputerPlayer_should_guess_current_room (self : t) : Result bool :=
  match room self with
  | None => Raise KeyError
  | Some r =>
      known ← LogBook.is_room_known r (log_book self);
      if negb known then mret true
      else if bool_decide (Solution.room (LogBook.solution (log_book self)) <> None) then
        Hand.has_card (hand self) (Some (mkCard (VRoom r) ROOM))
      else mret false
  end.

(** [self.should_guess_current_room()] *)
Definition should_guess_current_room (self : t) : Result bool :=
  match cls self with
  | PlayerClass => Raise (Exception "Not Implemented")
  | ComputerPlayerClass => ComputerPlayer_should_guess_current_room self
  end.

Definition next_turn_action (self : t) : Result PlayerAction :=
  if LogBook.has_solution (log_book self) then mret ACCUSATION
  else
    cond ← (if bool_decide (room self = None) then mret true
            else guess ← should_guess_current_room self; mret (negb guess));
    if cond : bool then mret MOVE else mret GUESS.

(** The body of the loop of [move_path], for one step. *)
Definition move_step (p : Step) : M t unit :=
  match p with
  | Space row col =>
      modify (fun self => set_position (Some (row, col)) (set_room None self))
  | RoomPosition room => modify (enter_room room)
  | OtherStep => raise (NameError "Expection")
  end.

Fixpoint move_steps (path : list Step) : M t unit :=
  match path with
  | [] => mret tt
  | p :: path' => move_step p;; move_steps path'
  end.

Definition move_path (roll : Z) (room_path : RoomPath.t) : M t unit :=
  if decide (roll < RoomPath.distance room_path) then
    raise (Exception "Path is longer than roll")
  else move_steps (RoomPath.path room_path).

(** [ComputerPlayer.decide_weapon_guess]; [rnd] is the draw of
    [random.choice]. *)
Definition ComputerPlayer_decide_weapon_guess (rnd : nat) (self : t) : Result Card :=
  match Solution.weapon (LogBook.solution (log_book self)) with
  | Some card => Ok card
  | None => random_choice rnd (LogBook.get WEAPON false (log_book self))
  end.

(** [ComputerPlayer.decide_character_guess] *)
Definition ComputerPlayer_decide_character_guess (rnd : nat) (self : t) : Result Card :=
  match Solution.character (LogBook.solution (log_book self)) with
  | Some card => Ok card
  | None => random_choice rnd (LogBook.get CHARACTER false (log_book self))
  end.

(** [self.decide_weapon_guess()] *)
Definition decide_weapon_guess (rnd : nat) (self : t) : Result Card :=
  match cls self with
  | PlayerClass => Raise (Exception "Not Implemented")
  | ComputerPlayerClass => ComputerPlayer_decide_weapon_guess rnd self
  end.

(** [self.decide_character_guess()] *)
Definition decide_character_guess (rnd : nat) (self : t) : Result Card :=
  match cls self with
  | PlayerClass => Raise (Exception "Not Implemented")
  | ComputerPlayerClass => ComputerPlayer_decide_character_guess rnd self
  end.

Definition _get_unknown_rooms (self : t) : list CardValue :=
  map value (LogBook.get ROOM false (log_book self)).

Definition _use_remaining_roll (P : Paths) (roll : Z) : M t RoomPath.t := fun self =>
  match remaining_path self with
  | None => (Raise AttributeError, self)
  | Some rp =>
      if decide (RoomPath.distance rp > roll) then
        let room := RoomPath.room rp in
        let this_path := slice_to (RoomPath.path rp) roll in
        let remaining_path := slice_from (RoomPath.path rp) roll in
        (Ok (RoomPath_new P room this_path),
         set_remaining_path (Some (RoomPath_new P room remaining_path)) self)
      else (Ok rp, set_remaining_path None self)
  end.

(** [ComputerPlayer.use_roll]; [rnd] is the draw of [random.choice]. *)
Definition ComputerPlayer_use_roll (P : Paths) (rnd : nat) (roll : Z) : M t RoomPath.t :=
  fun self =>
  if bool_decide (remaining_path self <> None) then _use_remaining_roll P roll self
  else
    let unknown_rooms := _get_unknown_rooms self in
    let room_paths :=
      match room self with
      | None =>
          match position self with
          | None => Raise TypeError
          | Some (row, col) => Ok (room_paths_from_position P row col unknown_rooms)
          end
      | Some r => Ok (room_paths_from_room P r unknown_rooms)
      end in
    match room_paths ≫= random_choice rnd with
    | Raise e => (Raise e, self)
    | Ok path =>
        if decide (RoomPath.distance path > roll) then
          (Ok (RoomPath_new P (RoomPath.room path) (slice_to (RoomPath.path path) roll)),
           set_remaining_path
             (Some (RoomPath_new P (RoomPath.room path) (slice_from (RoomPath.path path) roll)))
             self)
        else (Ok path, self)
    end.

(** [self.use_roll(roll)] *)
Definition use_roll (P : Paths) (rnd : nat) (roll : Z) : M t RoomPath.t :=
  fun self =>
  match cls self with
  | PlayerClass => (Raise (Exception "Not Implemented"), self)
  | ComputerPlayerClass => ComputerPlayer_use_roll P rnd roll self
  end.
End Player.

(** ** Runs of LogBook operations *)

Inductive LogBookOp : Type :=
  | OpLog (card : option Card)
  | OpGet (card_type : CardType) (known : bool)
  | OpFindSolution (card_type : CardType)
  | OpHasSolution
  | OpIsRoomKnown (room : Room)
  | OpFoundSolution (solution : Solution.t).

(** The LogBook after one call; [get], [has_solution] and
    [is_room_known] assign nothing. *)
Definition run_op (op : LogBookOp) (lb : LogBook.t) : LogBook.t :=
  match op with
  | OpLog card => exec (LogBook.log card) lb
  | OpFindSolution card_type => exec (LogBook.find_solution card_type) lb
  | OpFoundSolution solution => exec (LogBook.found_solution solution) lb
  | OpGet _ _ | OpHasSolution | OpIsRoomKnown _ => lb
  end.

Definition run (ops : list LogBookOp) (lb : LogBook.t) : LogBook.t :=
  foldl (fun lb op => run_op op lb) lb ops.

Definition is_found_solution (op : LogBookOp) : bool :=
  match op with OpFoundSolution _ => true | _ => false end.

(** The card is marked eliminated in the per-card map. *)
Definition eliminated (lb : LogBook.t) (c : Card) : Prop :=
  dict_get c (LogBook.log_book lb) = Some true.

(** The card is in the per-card map and not marked eliminated. *)
Definition candidate (lb : LogBook.t) (c : Card) : Prop :=
  dict_get c (LogBook.log_book lb) = Some false.

(** A dict holds each key once. *)
Definition dict_wf (d : list (Card * bool)) : Prop := NoDup d.*1.

(** ** Views by category, used to state the properties *)

(** The tracking array of a category. *)
Definition array (k : CardType) (lb : LogBook.t) : ndarray :=
  match k with
  | WEAPON => LogBook.weapons lb
  | CHARACTER => LogBook.characters lb
  | ROOM => LogBook.rooms lb
  end.

Definition set_array (k : CardType) (a : ndarray) (lb : LogBook.t) : LogBook.t :=
  match k with
  | WEAPON => LogBook.set_weapons a lb
  | CHARACTER => LogBook.set_characters a lb
  | ROOM => LogBook.set_rooms a lb
  end.

(** What [find_solution] leaves behind: the single remaining candidate of
    the category goes into its slot when the slot is unset and the
    solution is not complete. *)
Definition deduce (k : CardType) (lb : LogBook.t) : LogBook.t :=
  if Solution.is_complete (LogBook.solution lb) then lb
  else
    match Solution.slot k (LogBook.solution lb), LogBook.get k false lb with
    | None, [r] =>
        LogBook.set_solution (Solution.set_slot k (Some r) (LogBook.solution lb)) lb
    | _, _ => lb
    end.

(** The LogBook after the first two statements of [log(card)]: the
    card is marked and [find_solution] has run. *)
Definition log_state (card : Card) (lb : LogBook.t) : LogBook.t :=
  deduce (type card)
    (LogBook.set_log_book (dict_set card true (LogBook.log_book lb)) lb).

(** What one [if] statement of [found_solution] does for its category
    [k]: nothing when the slot is set or the candidate's card is marked
    eliminated; otherwise the card is adopted, the tracking array is
    replaced by six ones and its entry at the index of the candidate's
    character is cleared. *)
Definition adopt (k : CardType) (s : Solution.t) : M LogBook.t unit := fun lb =>
  match Solution.slot k (LogBook.solution lb) with
  | Some _ => (Ok tt, lb)
  | None =>
      match dict_getitem (LogBook.log_book lb) (Solution.slot k s) with
      | Raise e => (Raise e, lb)
      | Ok true => (Ok tt, lb)
      | Ok false =>
          let lb1 :=
            LogBook.set_solution
              (Solution.set_slot k (Solution.slot k s) (LogBook.solution lb)) lb in
          let lb2 := set_array k (np_ones 6 int32) lb1 in
          match LogBook.character_index s with
          | Raise e => (Raise e, lb2)
          | Ok i =>
              match np_setitem (np_ones 6 int32) i 0 with
              | Ok a => (Ok tt, set_array k a lb2)
              | Raise e => (Raise e, lb2)
              end
          end
      end
  end.


(** ** Views of hands, solutions and paths, used to state the properties *)

(** A slot of the match of a guess against the cards [cs]: the card of
    the guess when it is among [cs], unset otherwise. *)
Definition held (cs : list Card) (slot : option Card) : option Card :=
  match slot with
  | Some c => if bool_decide (c ∈ cs) then Some c else None
  | None => None
  end.

(** The number of populated slots. *)
Definition populated (s : Solution.t) : nat :=
  (if Solution.weapon s is Some _ then 1 else 0)
  + (if Solution.character s is Some _ then 1 else 0)
  + (if Solution.room s is Some _ then 1 else 0).

(** A step of one of the two kinds [move_path] knows. *)
Definition recognized (p : Step) : Prop := p <> OtherStep.

(** The list of paths [ComputerPlayer.use_roll] asks the board for. *)
Definition board_paths (P : Paths) (self : Player.t) : Result (list RoomPath.t) :=
  match Player.room self with
  | None =>
      match Player.position self with
      | None => Raise TypeError
      | Some (row, col) =>
          Ok (room_paths_from_position P row col (Player._get_unknown_rooms self))
      end
  | Some r => Ok (room_paths_from_room P r (Player._get_unknown_rooms self))
  end.

(** The path [ComputerPlayer.use_roll] works on: the remainder of the
    previous turns when there is one, the path drawn among the board's
    answers otherwise. *)
Definition working_path (P : Paths) (rnd : nat) (self : Player.t) : Result RoomPath.t :=
  match Player.remaining_path self with
  | Some rp => Ok rp
  | None => board_paths P self ≫= random_choice rnd
  end.

(** ** Views used to state further properties *)

(** The keys of the per-card map. *)
Definition keys (lb : LogBook.t) : list Card := (LogBook.log_book lb).*1.

(** The player after being given the cards [cs] in turn, whether or not
    a call raised. *)
Definition give_cards (cs : list Card) (self : Player.t) : Player.t :=
  foldl (fun s c => exec (Player.give_card c) s) self cs.

(** Every card the hand holds is marked eliminated in the LogBook. *)
Definition hand_logged (self : Player.t) : Prop :=
  forall c, Hand.has_card (Player.hand self) (Some c) = Ok true ->
    eliminated (Player.log_book self) c.

(** The per-category lists of the hand agree with [all]. *)
Definition hand_consistent (h : Hand.t) : Prop :=
  Hand.weapons h = filter (fun c => type c = WEAPON) (Hand.all h)
  /\ Hand.rooms h = filter (fun c => type c = ROOM) (Hand.all h)
  /\ Hand.characters h = filter (fun c => type c = CHARACTER) (Hand.all h).

(** The card of a room. *)
Definition card_of_room (r : Room) : Card := mkCard (VRoom r) ROOM.

(** The index [log] writes for a card is within the tracking array of
    the card's category. *)
Definition index_in_range (lb : LogBook.t) (c : Card) : Prop :=
  let n := Z.of_nat (length (nd_data (array (type c) lb))) in
  - n <= enum_value (value c) - 1 < n.

(** A set slot holds a card of the deck, of the slot's category. *)
Definition slots_typed (deck : list Card) (lb : LogBook.t) : Prop :=
  forall k x, Solution.slot k (LogBook.solution lb) = Some x ->
    type x = k /\ x ∈ deck.

(** The cards that are not eliminated are cards of the deck. *)
Definition candidates_in (deck : list Card) (lb : LogBook.t) : Prop :=
  forall c, (c, false) ∈ LogBook.log_book lb -> c ∈ deck.

(** The slot of a category needs no adoption: it is set, or the
    candidate's card for it is marked eliminated. *)
Definition settled (k : CardType) (s : Solution.t) (lb : LogBook.t) : Prop :=
  Solution.slot k (LogBook.solution lb) <> None
  \/ dict_getitem (LogBook.log_book lb) (Solution.slot k s) = Ok true.

(** The player is at a coordinate or in a room, not both and not neither. *)
Definition located (self : Player.t) : Prop :=
  (Player.room self = None /\ Player.position self <> None)
  \/ (Player.room self <> None /\ Player.position self = None).

(** What [found_solution] leaves in an unset slot for the candidate's
    card [x], [b] being the flag of [x] in the per-card map: the card
    when it is not eliminated, nothing when it is. *)
Definition adopted (b : bool) (x : Card) : option Card :=
  if b then None else Some x.

(** ** Facts about dicts *)

Lemma dict_get_set_eq k v d : dict_get k (dict_set k v d) = Some v.
Proof.
  induction d as [|[k' v'] d IH]; simpl.
  - by rewrite decide_True.
  - destruct (decide (k = k')) as [->|Hne]; simpl.
    + by rewrite decide_True.
    + by rewrite decide_False.
Qed.

Lemma dict_get_set_ne k k' v d : k <> k' -> dict_get k' (dict_set k v d) = dict_get k' d.
Proof.
  intros Hne. induction d as [|[k0 v0] d IH]; simpl.
  - rewrite decide_False; [done | congruence].
  - destruct (decide (k = k0)) as [->|Hne0]; simpl.
    + rewrite !decide_False; [done | congruence | congruence].
    + by rewrite IH.
Qed.

Lemma dict_set_idemp k v d : dict_set k v (dict_set k v d) = dict_set k v d.
Proof.
  induction d as [|[k' v'] d IH]; simpl.
  - by rewrite decide_True.
  - destruct (decide (k = k')) as [->|Hne]; simpl.
    + by rewrite decide_True.
    + by rewrite decide_False, IH.
Qed.

Lemma dict_set_keys_old k v d : k ∈ d.*1 -> (dict_set k v d).*1 = d.*1.
Proof.
  induction d as [|[k' v'] d IH]; csimpl; intros Hin.
  - by apply elem_of_nil in Hin.
  - destruct (decide (k = k')) as [->|Hne]; csimpl; [done|].
    f_equal. apply IH. apply elem_of_cons in Hin as [?|?]; [done|done].
Qed.

Lemma dict_set_keys_new k v d : k ∉ d.*1 -> (dict_set k v d).*1 = d.*1 ++ [k].
Proof.
  induction d as [|[k' v'] d IH]; csimpl; intros Hin; [done|].
  apply not_elem_of_cons in Hin as [Hne Hin].
  rewrite decide_False by done. csimpl. by rewrite IH.
Qed.

Lemma dict_set_wf k v d : dict_wf d -> dict_wf (dict_set k v d).
Proof.
  unfold dict_wf. intros Hwf. destruct (decide (k ∈ d.*1)) as [Hin|Hin].
  - by rewrite dict_set_keys_old.
  - rewrite dict_set_keys_new by done. apply NoDup_app. split_and!; [done| |apply NoDup_singleton].
    intros x Hx Hx'. apply list_elem_of_singleton in Hx' as ->. done.
Qed.

(** Another key's entries are the same before and after [d[k] = v]. *)
Lemma dict_set_entry_ne k v d k' b :
  k' <> k -> (k', b) ∈ dict_set k v d <-> (k', b) ∈ d.
Proof.
  intros Hne. induction d as [|[k0 v0] d IH]; simpl.
  - rewrite list_elem_of_singleton. split; [congruence|]. by intros ?%elem_of_nil.
  - destruct (decide (k = k0)) as [->|Hne0].
    + rewrite !elem_of_cons. split; (intros [?|?]; [left; congruence | by right]).
    + rewrite !elem_of_cons, IH. done.
Qed.

(** [d[k] = True] leaves every entry that is [True] in place and adds no
    entry that is [False]. *)
Lemma dict_set_true_entry k d k' :
  (k', true) ∈ d -> (k', true) ∈ dict_set k true d.
Proof.
  induction d as [|[k0 v0] d IH]; simpl; [by intros ?%elem_of_nil|].
  rewrite elem_of_cons. intros [Heq|Hin].
  - inversion Heq; subst. destruct (decide (k = k0)); apply elem_of_cons; by left.
  - destruct (decide (k = k0)); apply elem_of_cons; right; auto.
Qed.

Lemma dict_set_false_entry k d k' :
  (k', false) ∈ dict_set k true d -> (k', false) ∈ d.
Proof.
  induction d as [|[k0 v0] d IH]; simpl.
  - rewrite list_elem_of_singleton. congruence.
  - destruct (decide (k = k0)) as [->|Hne0]; rewrite !elem_of_cons.
    + intros [?|?]; [congruence | by right].
    + intros [?|?]; [by left | right; auto].
Qed.

Lemma dict_get_entry k v d : dict_get k d = Some v -> (k, v) ∈ d.
Proof.
  induction d as [|[k0 v0] d IH]; simpl; [done|].
  destruct (decide (k = k0)) as [->|Hne].
  - intros [= ->]. apply elem_of_cons. by left.
  - intros H. apply elem_of_cons. right. auto.
Qed.

Lemma dict_wf_entry_get k v d : dict_wf d -> (k, v) ∈ d -> dict_get k d = Some v.
Proof.
  unfold dict_wf. induction d as [|[k0 v0] d IH]; csimpl; [by intros _ ?%elem_of_nil|].
  rewrite NoDup_cons, elem_of_cons. intros [Hk0 Hnd] [Heq|Hin].
  - inversion Heq; subst. by rewrite decide_True.
  - destruct (decide (k = k0)) as [->|Hne]; [|auto].
    exfalso. apply Hk0. apply list_elem_of_fmap. by exists (k0, v).
Qed.

Lemma dict_init_wf deck : dict_wf (foldl (fun d card => dict_set card false d) [] deck).
Proof.
  assert (Hgen : forall d, dict_wf d ->
    dict_wf (foldl (fun d card => dict_set card false d) d deck)).
  { induction deck as [|c deck IH]; simpl; [done|]. intros d Hd. apply IH. by apply dict_set_wf. }
  apply Hgen. apply NoDup_nil_2.
Qed.

(** ** Facts about LogBook.find_solution and LogBook.log *)

Lemma find_solution_eq k lb : LogBook.find_solution k lb = (Ok tt, deduce k lb).
Proof.
  unfold LogBook.find_solution, deduce.
  destruct (Solution.is_complete (LogBook.solution lb)); [done|].
  destruct lb as [d aw ac ar [w c r]].
  destruct k; simpl; (destruct w, c, r; simpl; try done);
    unfold LogBook.get; simpl;
    match goal with |- context [filter ?P ?l] => destruct (filter P l) as [|? [|? ?]] end;
    done.
Qed.
Lemma deduce_log_book k lb : LogBook.log_book (deduce k lb) = LogBook.log_book lb.
Proof. unfold deduce. repeat case_match; done. Qed.

Lemma deduce_array k k' lb : array k' (deduce k lb) = array k' lb.
Proof. unfold deduce. repeat case_match; by destruct k'. Qed.

Lemma deduce_slot_other k k' lb :
  k' <> k -> Solution.slot k' (LogBook.solution (deduce k lb)) = Solution.slot k' (LogBook.solution lb).
Proof. intros Hne. unfold deduce. repeat case_match; try done; by destruct k, k'. Qed.


Lemma get_set_array k b k' a lb : LogBook.get k b (set_array k' a lb) = LogBook.get k b lb.
Proof. by destruct k'. Qed.

Lemma deduce_set_array k k' a lb : deduce k (set_array k' a lb) = set_array k' a (deduce k lb).
Proof.
  unfold deduce. rewrite get_set_array.
  replace (LogBook.solution (set_array k' a lb)) with (LogBook.solution lb) by (by destruct k').
  repeat case_match; try done; by destruct k'.
Qed.

Lemma slot_set_slot k c s : Solution.slot k (Solution.set_slot k c s) = c.
Proof. by destruct k. Qed.

Lemma is_complete_slot s k : Solution.is_complete s = true -> Solution.slot k s <> None.
Proof.
  unfold Solution.is_complete. rewrite !andb_true_iff, !bool_decide_eq_true.
  intros [[? ?] ?]. by destruct k.
Qed.

Lemma deduce_slot_set k lb x :
  Solution.slot k (LogBook.solution lb) = Some x -> deduce k lb = lb.
Proof. intros Hx. unfold deduce. rewrite Hx. by case_match. Qed.

Lemma deduce_idemp k lb : deduce k (deduce k lb) = deduce k lb.
Proof.
  destruct (Solution.slot k (LogBook.solution (deduce k lb))) as [x|] eqn:Hs.
  { by apply deduce_slot_set with x. }
  revert Hs. unfold deduce at 1 3.
  destruct (Solution.is_complete (LogBook.solution lb)) eqn:Hc.
  { intros Hs. by apply is_complete_slot with (k := k) in Hc. }
  destruct (Solution.slot k (LogBook.solution lb)) eqn:Hs'; [by rewrite Hs'|].
  destruct (LogBook.get k false lb) as [|r [|]] eqn:Hg; simpl.
  - intros _. unfold deduce. by rewrite Hc, Hs', Hg.
  - by rewrite slot_set_slot.
  - intros _. unfold deduce. by rewrite Hc, Hs', Hg.
Qed.
Lemma log_eq c lb :
  LogBook.log (Some c) lb =
  match np_setitem (array (type c) (log_state c lb)) (enum_value (value c) - 1) 1 with
  | Ok a => (Ok tt, set_array (type c) a (log_state c lb))
  | Raise e => (Raise e, log_state c lb)
  end.
Proof.
  unfold LogBook.log, log_state, mbind, M_bind, modify.
  rewrite find_solution_eq.
  destruct (type c); reflexivity.
Qed.

Lemma exec_log_log_book c lb :
  LogBook.log_book (exec (LogBook.log (Some c)) lb) = dict_set c true (LogBook.log_book lb).
Proof.
  unfold exec. rewrite log_eq.
  assert (LogBook.log_book (log_state c lb) = dict_set c true (LogBook.log_book lb)) as Hd.
  { unfold log_state. by rewrite deduce_log_book. }
  case_match; simpl; [|done]. by destruct (type c).
Qed.

Lemma exec_log_solution c lb :
  LogBook.solution (exec (LogBook.log (Some c)) lb) = LogBook.solution (log_state c lb).
Proof.
  unfold exec. rewrite log_eq. case_match; simpl; [|done]. by destruct (type c).
Qed.

Lemma exec_log_array_other c k lb :
  k <> type c -> array k (exec (LogBook.log (Some c)) lb) = array k lb.
Proof.
  intros Hne. unfold exec. rewrite log_eq.
  assert (array k (log_state c lb) = array k lb) as Ha.
  { unfold log_state. rewrite deduce_array. by destruct k. }
  case_match; simpl; [|done]. rewrite <- Ha. by destruct k, (type c).
Qed.

Lemma np_setitem_idemp a i v a' : np_setitem a i v = Ok a' -> np_setitem a' i v = Ok a'.
Proof.
  unfold np_setitem. destruct a as [dt l]; simpl.
  destruct (decide (fits_C_long i)) as [Hfit|Hfit]; [|done].
  destruct (decide (0 <= i < Z.of_nat (length l))) as [Hi|Hi].
  - intros [= <-]; simpl. rewrite length_insert, decide_True by done.
    by rewrite list_insert_insert_eq.
  - destruct (decide (- Z.of_nat (length l) <= i < 0)) as [Hj|Hj]; [|done].
    intros [= <-]; simpl. rewrite length_insert, decide_False, decide_True by done.
    by rewrite list_insert_insert_eq.
Qed.

Lemma array_set_array k a lb : array k (set_array k a lb) = a.
Proof. by destruct k. Qed.

Lemma set_array_set_array k a a' lb : set_array k a (set_array k a' lb) = set_array k a lb.
Proof. by destruct k. Qed.

Lemma set_log_book_set_array k a d lb :
  LogBook.set_log_book d (set_array k a lb) = set_array k a (LogBook.set_log_book d lb).
Proof. by destruct k. Qed.

Lemma set_log_book_id lb : LogBook.set_log_book (LogBook.log_book lb) lb = lb.
Proof. by destruct lb. Qed.

Lemma log_state_idemp c lb : log_state c (log_state c lb) = log_state c lb.
Proof.
  unfold log_state at 1. unfold log_state at 1. rewrite deduce_log_book. simpl.
  rewrite dict_set_idemp.
  replace (dict_set c true (LogBook.log_book lb))
    with (LogBook.log_book (log_state c lb)) at 1
    by (unfold log_state; by rewrite deduce_log_book).
  fold (log_state c lb). rewrite set_log_book_id. unfold log_state. apply deduce_idemp.
Qed.

Lemma log_state_set_array c k a lb :
  log_state c (set_array k a lb) = set_array k a (log_state c lb).
Proof.
  unfold log_state.
  replace (LogBook.log_book (set_array k a lb)) with (LogBook.log_book lb) by (by destruct k).
  by rewrite set_log_book_set_array, deduce_set_array.
Qed.
Lemma found_solution_character_eq s lb :
  LogBook.found_solution_character s lb = adopt CHARACTER s lb.
Proof.
  unfold LogBook.found_solution_character, adopt, LogBook.adoptable, mbind, M_bind; simpl.
  destruct (Solution.character (LogBook.solution lb)); [done|].
  by destruct (dict_getitem _ _) as [[|]|].
Qed.

Lemma found_solution_weapon_eq s lb :
  LogBook.found_solution_weapon s lb = adopt WEAPON s lb.
Proof.
  unfold LogBook.found_solution_weapon, adopt, LogBook.adoptable, mbind, M_bind; simpl.
  destruct (Solution.weapon (LogBook.solution lb)); [done|].
  by destruct (dict_getitem _ _) as [[|]|].
Qed.

Lemma found_solution_room_eq s lb :
  LogBook.found_solution_room s lb = adopt ROOM s lb.
Proof.
  unfold LogBook.found_solution_room, adopt, LogBook.adoptable, mbind, M_bind; simpl.
  destruct (Solution.room (LogBook.solution lb)); [done|].
  by destruct (dict_getitem _ _) as [[|]|].
Qed.

(** A property of the object that every step keeps is kept by a
    sequence of steps, whether it returns or raises. *)
Lemma exec_bind_keeps {S A B} (P : S -> Prop) (m : M S A) (k : A -> M S B) s :
  (forall s, P s -> P (exec m s)) -> (forall a s, P s -> P (exec (k a) s)) ->
  P s -> P (exec (m ≫= k) s).
Proof.
  intros Hm Hk Hs. unfold exec, mbind, M_bind. specialize (Hm s Hs). unfold exec in Hm.
  destruct (m s) as [[a|e] s']; simpl in *; [|done]. by apply Hk.
Qed.

Lemma adopt_keeps (P : LogBook.t -> Prop) k s :
  (forall lb x, P lb -> Solution.slot k (LogBook.solution lb) = None ->
     P (LogBook.set_solution (Solution.set_slot k x (LogBook.solution lb)) lb)) ->
  (forall lb a, P lb -> P (set_array k a lb)) ->
  forall lb, P lb -> P (exec (adopt k s) lb).
Proof.
  intros Hsol Harr lb Hlb. unfold exec, adopt.
  destruct (Solution.slot k (LogBook.solution lb)) eqn:Hs; [done|].
  destruct (dict_getitem _ _) as [[|]|]; simpl; try done.
  destruct (LogBook.character_index s); simpl; [|by auto].
  destruct (np_setitem _ _ _); simpl; auto.
Qed.

Lemma found_solution_keeps (P : LogBook.t -> Prop) s :
  (forall k lb x, P lb -> Solution.slot k (LogBook.solution lb) = None ->
     P (LogBook.set_solution (Solution.set_slot k x (LogBook.solution lb)) lb)) ->
  (forall k lb a, P lb -> P (set_array k a lb)) ->
  forall lb, P lb -> P (exec (LogBook.found_solution s) lb).
Proof.
  intros Hsol Harr lb Hlb. unfold LogBook.found_solution.
  apply exec_bind_keeps; [| |done].
  { intros lb' ?. unfold exec. rewrite found_solution_character_eq. apply (adopt_keeps P); auto. }
  intros _ lb1 ?. apply exec_bind_keeps; [| |done].
  { intros lb' ?. unfold exec. rewrite found_solution_weapon_eq. apply (adopt_keeps P); auto. }
  intros _ lb2 ?. unfold exec. rewrite found_solution_room_eq. apply (adopt_keeps P); auto.
Qed.

(** A property that each of the three [if] statements keeps, whatever
    its outcome, is kept by [found_solution]. *)
Lemma found_solution_keeps_steps (P : LogBook.t -> Prop) s :
  (forall k lb, P lb -> P (exec (adopt k s) lb)) ->
  forall lb, P lb -> P (exec (LogBook.found_solution s) lb).
Proof.
  intros Hstep lb Hlb. unfold LogBook.found_solution.
  apply exec_bind_keeps; [| |done].
  { intros lb' ?. unfold exec. rewrite found_solution_character_eq. by apply Hstep. }
  intros _ lb1 ?. apply exec_bind_keeps; [| |done].
  { intros lb' ?. unfold exec. rewrite found_solution_weapon_eq. by apply Hstep. }
  intros _ lb2 ?. unfold exec. rewrite found_solution_room_eq. by apply Hstep.
Qed.

Lemma exec_found_solution_log_book s lb :
  LogBook.log_book (exec (LogBook.found_solution s) lb) = LogBook.log_book lb.
Proof.
  apply (found_solution_keeps (fun lb' => LogBook.log_book lb' = LogBook.log_book lb)); [| |done].
  - done.
  - intros k lb' a <-. by destruct k.
Qed.

Lemma slot_set_slot_ne k k' c s : k' <> k -> Solution.slot k' (Solution.set_slot k c s) = Solution.slot k' s.
Proof. by destruct k, k'. Qed.

(** ** Facts about LogBook.get and runs of operations *)

Lemma elem_of_get c k b lb :
  c ∈ LogBook.get k b lb <-> (c, b) ∈ LogBook.log_book lb /\ type c = k.
Proof.
  unfold LogBook.get. rewrite list_elem_of_fmap. split.
  - intros [[c' b'] [-> Hin]]. apply list_elem_of_filter in Hin as [[Ht Hb] Hin].
    simpl in *. by subst.
  - intros [Hin Ht]. exists (c, b). split; [done|]. by apply list_elem_of_filter.
Qed.

Lemma run_op_log_book op lb :
  LogBook.log_book (run_op op lb) =
  match op with
  | OpLog (Some c) => dict_set c true (LogBook.log_book lb)
  | _ => LogBook.log_book lb
  end.
Proof.
  destruct op as [[c|]| | | | |]; simpl; try done.
  - apply exec_log_log_book.
  - unfold exec. rewrite find_solution_eq. apply deduce_log_book.
  - apply exec_found_solution_log_book.
Qed.

Lemma run_snoc ops op lb : run (ops ++ [op]) lb = run_op op (run ops lb).
Proof. unfold run. by rewrite foldl_app. Qed.

Lemma run_op_wf op lb : dict_wf (LogBook.log_book lb) -> dict_wf (LogBook.log_book (run_op op lb)).
Proof.
  intros Hwf. rewrite run_op_log_book. destruct op as [[c|]| | | | |]; try done.
  by apply dict_set_wf.
Qed.

Lemma run_wf ops lb : dict_wf (LogBook.log_book lb) -> dict_wf (LogBook.log_book (run ops lb)).
Proof.
  revert lb. induction ops as [|op ops IH]; intros lb Hwf; [done|].
  simpl. apply IH. by apply run_op_wf.
Qed.

Lemma run_op_eliminated op lb c : eliminated lb c -> eliminated (run_op op lb) c.
Proof.
  unfold eliminated. rewrite run_op_log_book. intros H.
  destruct op as [[c'|]| | | | |]; try done.
  destruct (decide (c' = c)) as [->|Hne].
  - apply dict_get_set_eq.
  - by rewrite dict_get_set_ne.
Qed.

Lemma run_eliminated ops lb c : eliminated lb c -> eliminated (run ops lb) c.
Proof.
  revert lb. induction ops as [|op ops IH]; intros lb H; [done|].
  simpl. apply IH. by apply run_op_eliminated.
Qed.

(** C3: over every sequence of LogBook operations ([log] interleaved
    with [get], [find_solution], [has_solution], [is_room_known] and
    [found_solution]) on a LogBook whose per-card map is a dict (each
    key once), a card that is marked eliminated stays marked eliminated:
    the per-card map keeps [True] for it, [get(type, True)] keeps
    reporting it and [get(type, False)] never reports it. *)
Theorem eliminated_monotone (ops : list LogBookOp) (lb : LogBook.t) (c : Card)
    (Hwf : dict_wf (LogBook.log_book lb)) (H : eliminated lb c) :
  eliminated (run ops lb) c
  /\ c ∈ LogBook.get (type c) true (run ops lb)
  /\ c ∉ LogBook.get (type c) false (run ops lb).
Proof.
  pose proof (run_eliminated ops lb c H) as He.
  pose proof (run_wf ops lb Hwf) as Hwf'.
  split_and!; [done| |].
  - apply elem_of_get. split; [|done]. by apply dict_get_entry.
  - rewrite elem_of_get. intros [Hin _].
    apply (dict_wf_entry_get _ _ _ Hwf') in Hin. unfold eliminated in He. congruence.
Qed.

Lemma eliminated_monotone_witness :
  let ops := [OpLog (Some (room_card 2)); OpGet ROOM false;
              OpFoundSolution (Solution.mk (Some (weapon_card 1))
                 (Some (character_card 1)) (Some (room_card 3)));
              OpLog None; OpIsRoomKnown (RoomOf 4); OpLog (Some (weapon_card 1))] in
  let lb := exec (LogBook.log (Some (weapon_card 3))) (LogBook.init static_deck) in
  eliminated (run ops lb) (weapon_card 3)
  /\ weapon_card 3 ∈ LogBook.get WEAPON true (run ops lb)
  /\ weapon_card 3 ∉ LogBook.get WEAPON false (run ops lb).
Proof.
  apply (eliminated_monotone _ _ (weapon_card 3)).
  - unfold dict_wf. apply (bool_decide_unpack _). vm_compute. exact I.
  - vm_compute. reflexivity.
Defined.

(** C9: [log] is idempotent: a second [log(c)] returns or raises as the
    first did and leaves the LogBook as the first left it; [log(None)]
    returns and leaves the whole LogBook as it was. *)
Theorem log_idempotent (c : option Card) (lb : LogBook.t) :
  LogBook.log c (exec (LogBook.log c) lb) = LogBook.log c lb
  /\ LogBook.log None lb = (Ok tt, lb).
Proof.
  split; [|done]. destruct c as [c|]; [|done].
  unfold exec. rewrite (log_eq c lb).
  destruct (np_setitem (array (type c) (log_state c lb)) (enum_value (value c) - 1) 1)
    as [a|e] eqn:Hset; cbn [snd].
  - rewrite log_eq, log_state_set_array, log_state_idemp, array_set_array.
    by rewrite (np_setitem_idemp _ _ _ _ Hset), set_array_set_array.
  - by rewrite log_eq, log_state_idemp, Hset.
Qed.

(** C10: [log(c)] changes the per-card map at [c] only and the Solution
    in the slot of [c]'s category only: the entry of every other card,
    what [get] reports about every other card, the slots of the other
    two categories and the tracking arrays of the other two categories
    are as before. *)
Theorem log_frame (c : Card) (lb : LogBook.t) :
  let lb' := exec (LogBook.log (Some c)) lb in
  (forall c', c' <> c ->
     dict_get c' (LogBook.log_book lb') = dict_get c' (LogBook.log_book lb))
  /\ (forall c' k b, c' <> c ->
        c' ∈ LogBook.get k b lb' <-> c' ∈ LogBook.get k b lb)
  /\ (forall k, k <> type c ->
        Solution.slot k (LogBook.solution lb') = Solution.slot k (LogBook.solution lb))
  /\ (forall k, k <> type c -> array k lb' = array k lb).
Proof.
  cbv zeta. split_and!.
  - intros c' Hne. rewrite exec_log_log_book. by apply dict_get_set_ne.
  - intros c' k b Hne. rewrite !elem_of_get, exec_log_log_book.
    by rewrite dict_set_entry_ne.
  - intros k Hne. rewrite exec_log_solution. unfold log_state.
    by rewrite deduce_slot_other.
  - intros k Hne. by apply exec_log_array_other.
Qed.
(** ** Deduction by elimination *)
















(** On that run, which has a [found_solution] before the decisive
    [log], the weapon 6 is deduced. *)
Example single_candidate_after_found_solution :
  let cand := Solution.mk (Some (weapon_card 1)) (Some (character_card 3))
                (Some (room_card 4)) in
  let lb := run [OpLog (Some (weapon_card 1)); OpFoundSolution cand;
                 OpLog (Some (weapon_card 2)); OpLog (Some (weapon_card 3));
                 OpGet WEAPON false; OpLog (Some (weapon_card 4));
                 OpLog (Some (weapon_card 5))]
              (LogBook.init static_deck) in
  LogBook.get WEAPON false lb = [weapon_card 6]
  /\ LogBook.solution lb
     = Solution.mk (Some (weapon_card 6)) (Some (character_card 3)) (Some (room_card 4)).
Proof. vm_compute. split; reflexivity. Qed.

(** ** LogBook.found_solution *)

Lemma adopt_fire k s lb x i :
  Solution.slot k (LogBook.solution lb) = None ->
  Solution.slot k s = Some x ->
  candidate lb x ->
  LogBook.character_index s = Ok i ->
  0 <= i < 6 ->
  adopt k s lb =
  (Ok tt,
   set_array k (mk_ndarray int32 (<[Z.to_nat i := 0]> (replicate 6 1)))
     (LogBook.set_solution (Solution.set_slot k (Some x) (LogBook.solution lb)) lb)).
Proof.
  intros Hnone Hx Hcand Hi Hrange. unfold adopt, candidate in *.
  rewrite Hnone, Hx. simpl. rewrite Hcand, Hi.
  unfold np_setitem, np_ones. cbn [nd_data nd_dtype]. rewrite length_replicate.
  rewrite decide_True by (unfold fits_C_long; lia). rewrite decide_True by lia.
  by rewrite set_array_set_array.
Qed.

Lemma adopt_step k s lb x b i :
  Solution.slot k (LogBook.solution lb) = None ->
  Solution.slot k s = Some x ->
  dict_get x (LogBook.log_book lb) = Some b ->
  LogBook.character_index s = Ok i ->
  0 <= i < 6 ->
  adopt k s lb =
  (Ok tt,
   if b then lb
   else set_array k (mk_ndarray int32 (<[Z.to_nat i := 0]> (replicate 6 1)))
          (LogBook.set_solution (Solution.set_slot k (Some x) (LogBook.solution lb)) lb)).
Proof.
  intros Hnone Hx Hget Hi Hrange. destruct b; [|by apply adopt_fire].
  unfold adopt. rewrite Hnone, Hx. simpl. by rewrite Hget.
Qed.

(** The guard of one [if] statement of [found_solution]: whatever the
    category [k'] of the statement and whether it returns or raises, the
    slot of a category whose candidate card is marked eliminated is left
    as it was, and so is the per-card map. *)
Lemma adopt_guard k' s lb k x :
  Solution.slot k s = Some x -> eliminated lb x ->
  Solution.slot k (LogBook.solution (exec (adopt k' s) lb))
  = Solution.slot k (LogBook.solution lb)
  /\ eliminated (exec (adopt k' s) lb) x.
Proof.
  unfold eliminated. intros Hx Helim. unfold exec, adopt.
  destruct (Solution.slot k' (LogBook.solution lb)) eqn:Hk'; [done|].
  destruct (dict_getitem _ _) as [[|]|] eqn:Hget; simpl; try done.
  assert (k' <> k) as Hne.
  { intros ->. rewrite Hx in Hget. simpl in Hget. by rewrite Helim in Hget. }
  assert (forall a lb1, Solution.slot k (LogBook.solution (set_array k' a lb1))
                        = Solution.slot k (LogBook.solution lb1)
                        /\ LogBook.log_book (set_array k' a lb1) = LogBook.log_book lb1) as Harr.
  { intros a lb1. by destruct k'. }
  destruct (LogBook.character_index s); simpl;
    [destruct (np_setitem _ _ _); simpl|];
    rewrite ?(proj1 (Harr _ _)), ?(proj2 (Harr _ _)); simpl;
    by rewrite slot_set_slot_ne.
Qed.

(** C1 (as amended): on a LogBook whose three slots are unset, with a
    complete candidate whose three cards are keys of the per-card map
    (the character being one of the six of its enumeration),
    [found_solution] returns and each slot holds the candidate's card
    exactly when that card is not marked eliminated, and stays unset
    when it is; so when none of the three cards is eliminated the
    deduced Solution is complete and equal to the candidate.  When the
    character is adopted the characters array marks every character
    other than the candidate's as eliminated: it holds 0 at the
    candidate's character and 1 at the five others.  And on any LogBook,
    for any candidate, a slot whose candidate card is marked eliminated
    is left as it was, whether [found_solution] returns or raises. *)
Theorem found_solution_adopts (lb : LogBook.t) (w c r : Card) (bw bc br : bool)
    (Hunset : LogBook.solution lb = Solution.mk None None None)
    (Hw : dict_get w (LogBook.log_book lb) = Some bw)
    (Hc : dict_get c (LogBook.log_book lb) = Some bc)
    (Hr : dict_get r (LogBook.log_book lb) = Some br)
    (Hidx : 1 <= enum_value (value c) <= 6) :
  let cand := Solution.mk (Some w) (Some c) (Some r) in
  let lb' := exec (LogBook.found_solution cand) lb in
  eval (LogBook.found_solution cand) lb = Ok tt
  /\ LogBook.solution lb' = Solution.mk (adopted bw w) (adopted bc c) (adopted br r)
  /\ (bw = false -> bc = false -> br = false ->
      LogBook.solution lb' = cand /\ LogBook.has_solution lb' = true)
  /\ (bc = false ->
      LogBook.characters lb' =
      mk_ndarray int32 (<[Z.to_nat (enum_value (value c) - 1) := 0]> (replicate 6 1)))
  /\ (forall lb0 s k x,
        Solution.slot k s = Some x -> eliminated lb0 x ->
        Solution.slot k (LogBook.solution (exec (LogBook.found_solution s) lb0))
        = Solution.slot k (LogBook.solution lb0)).
Proof.
  cbv zeta. set (cand := Solution.mk (Some w) (Some c) (Some r)).
  assert (LogBook.character_index cand = Ok (enum_value (value c) - 1)) as Hi by done.
  assert (0 <= enum_value (value c) - 1 < 6) as Hrange by lia.
  assert (forall lb0 s k x,
            Solution.slot k s = Some x -> eliminated lb0 x ->
            Solution.slot k (LogBook.solution (exec (LogBook.found_solution s) lb0))
            = Solution.slot k (LogBook.solution lb0)) as Hguard.
  { intros lb0 s k x Hx Helim.
    apply (found_solution_keeps_steps
             (fun lb1 => Solution.slot k (LogBook.solution lb1)
                         = Solution.slot k (LogBook.solution lb0) /\ eliminated lb1 x));
      [|done].
    intros k' lb1 [Hs He]. destruct (adopt_guard k' s lb1 k x Hx He) as [Hs' He'].
    split; [congruence|done]. }
  assert (eval (LogBook.found_solution cand) lb = Ok tt
          /\ LogBook.solution (exec (LogBook.found_solution cand) lb)
             = Solution.mk (adopted bw w) (adopted bc c) (adopted br r)
          /\ (bc = false ->
              LogBook.characters (exec (LogBook.found_solution cand) lb) =
              mk_ndarray int32 (<[Z.to_nat (enum_value (value c) - 1) := 0]> (replicate 6 1))))
    as (Hok & Hsol & Hchar).
  { unfold eval, exec, LogBook.found_solution, mbind, M_bind.
    rewrite found_solution_character_eq.
    rewrite (adopt_step CHARACTER cand lb c bc _) by (done || by rewrite Hunset).
    rewrite found_solution_weapon_eq.
    rewrite (adopt_step WEAPON cand _ w bw _)
      by (done || (destruct bc; simpl; by rewrite ?Hunset)).
    rewrite found_solution_room_eq.
    rewrite (adopt_step ROOM cand _ r br _)
      by (done || (destruct bc, bw; simpl; by rewrite ?Hunset)).
    destruct bc, bw, br; simpl; rewrite ?Hunset; split_and!; done. }
  split_and!; try done.
  intros -> -> ->. unfold LogBook.has_solution. rewrite Hsol. by split.
Qed.

Lemma found_solution_adopts_witness :
  let cand := Solution.mk (Some (weapon_card 2)) (Some (character_card 3))
                (Some (room_card 9)) in
  let lb := exec (LogBook.log (Some (room_card 9))) (LogBook.init static_deck) in
  let lb' := exec (LogBook.found_solution cand) lb in
  eval (LogBook.found_solution cand) lb = Ok tt
  /\ LogBook.solution lb'
     = Solution.mk (adopted false (weapon_card 2)) (adopted false (character_card 3))
         (adopted true (room_card 9))
  /\ (false = false -> false = false -> true = false ->
      LogBook.solution lb' = cand /\ LogBook.has_solution lb' = true)
  /\ (false = false ->
      LogBook.characters lb' = mk_ndarray int32 [1; 1; 0; 1; 1; 1])
  /\ (forall lb0 s k x,
        Solution.slot k s = Some x -> eliminated lb0 x ->
        Solution.slot k (LogBook.solution (exec (LogBook.found_solution s) lb0))
        = Solution.slot k (LogBook.solution lb0)).
Proof.
  apply (found_solution_adopts
           (exec (LogBook.log (Some (room_card 9))) (LogBook.init static_deck))
           (weapon_card 2) (character_card 3) (room_card 9) false false true).
  - vm_compute. reflexivity.
  - vm_compute. reflexivity.
  - vm_compute. reflexivity.
  - vm_compute. reflexivity.
  - simpl. lia.
Defined.

(** C1, the claim as stated fails on the code.  On the LogBook that
    [LogBook()] builds, [found_solution] adopts the candidate and leaves
    the per-card map alone: no weapon is reported eliminated afterwards.
    On a LogBook where the candidate's room 9 is already eliminated (the
    three slots still unset), the room slot stays unset, so the deduced
    Solution is neither complete nor the candidate. *)
Lemma found_solution_counterexample :
  let cand := Solution.mk (Some (weapon_card 2)) (Some (character_card 3))
                (Some (room_card 9)) in
  let lb1 := exec (LogBook.found_solution cand) (LogBook.init static_deck) in
  let lb := exec (LogBook.log (Some (room_card 9))) (LogBook.init static_deck) in
  let lb2 := exec (LogBook.found_solution cand) lb in
  (LogBook.solution lb1 = cand
   /\ LogBook.get WEAPON true lb1 = []
   /\ LogBook.get CHARACTER true lb1 = []
   /\ LogBook.get ROOM true lb1 = []
   /\ dict_get (weapon_card 1) (LogBook.log_book lb1) = Some false)
  /\ (LogBook.solution lb = Solution.mk None None None
      /\ LogBook.solution lb2 =
         Solution.mk (Some (weapon_card 2)) (Some (character_card 3)) None
      /\ LogBook.has_solution lb2 = false).
Proof. vm_compute. repeat split; reflexivity. Qed.

(** The tracking arrays after [found_solution] on the LogBook that
    [LogBook()] builds, for the candidate weapon 2, character 3, room 9:
    each of the three arrays has six entries and is cleared at the index
    of the character. *)
Example found_solution_arrays :
  let cand := Solution.mk (Some (weapon_card 2)) (Some (character_card 3))
                (Some (room_card 9)) in
  let lb' := exec (LogBook.found_solution cand) (LogBook.init static_deck) in
  LogBook.weapons lb' = mk_ndarray int32 [1; 1; 0; 1; 1; 1]
  /\ LogBook.characters lb' = mk_ndarray int32 [1; 1; 0; 1; 1; 1]
  /\ LogBook.rooms lb' = mk_ndarray int32 [1; 1; 0; 1; 1; 1].
Proof. vm_compute. repeat split; reflexivity. Qed.
(** ** Hand and SolutionMatcher *)

Lemma Hand_add_fold (cs : list Card) (h : Hand.t) :
  let h' := foldl (fun h c => Hand.add c h) h cs in
  Hand.weapons h' = Hand.weapons h ++ filter (fun c => type c = WEAPON) cs
  /\ Hand.rooms h' = Hand.rooms h ++ filter (fun c => type c = ROOM) cs
  /\ Hand.characters h' = Hand.characters h ++ filter (fun c => type c = CHARACTER) cs
  /\ Hand.all h' = Hand.all h ++ cs.
Proof.
  revert h. induction cs as [|c cs IH]; intros h; cbv zeta.
  - simpl. by rewrite !app_nil_r.
  - simpl foldl. destruct (IH (Hand.add c h)) as (Hw & Hr & Hc & Ha).
    rewrite Hw, Hr, Hc, Ha. rewrite !filter_cons.
    unfold Hand.add. destruct (type c) eqn:Ht; simpl;
      repeat case_decide; try done; by rewrite <- ?app_assoc.
Qed.

(** A hand built by [add] holds a card iff it was given that card. *)
Lemma has_card_of_cards cs c :
  Hand.has_card (Hand.of_cards cs) (Some c) = Ok (bool_decide (c ∈ cs)).
Proof.
  unfold Hand.of_cards. destruct (Hand_add_fold cs Hand.init) as (Hw & Hr & Hc & _).
  unfold Hand.has_card. destruct (type c) eqn:Ht; f_equal; apply bool_decide_ext.
  - rewrite Hw. simpl. rewrite list_elem_of_filter. tauto.
  - rewrite Hr. simpl. rewrite list_elem_of_filter. tauto.
  - rewrite Hc. simpl. rewrite list_elem_of_filter. tauto.
Qed.

Lemma compare_to_hand_complete cs w c r :
  SolutionMatcher.compare_to_hand (Hand.of_cards cs)
    (Solution.mk (Some w) (Some c) (Some r)) =
  Ok (Solution.mk (held cs (Some w)) (held cs (Some c)) (held cs (Some r))).
Proof.
  unfold SolutionMatcher.compare_to_hand. cbn [Solution.weapon Solution.room Solution.character].
  rewrite !has_card_of_cards. unfold held.
  by destruct (bool_decide (w ∈ cs)), (bool_decide (r ∈ cs)), (bool_decide (c ∈ cs)).
Qed.

(** C8 (as amended): matched against the hand that holds the cards
    [cs], a complete candidate gives a Solution whose populated slots
    are exactly the candidate's slots whose card is among [cs], each
    with the candidate's card; a candidate with an unset slot makes the
    call raise AttributeError.  The function is one of its two
    arguments: nothing is assigned to the hand or to the candidate. *)
Theorem compare_to_hand_spec (cs : list Card) (solution : Solution.t) :
  SolutionMatcher.compare_to_hand (Hand.of_cards cs) solution =
  if Solution.is_complete solution then
    Ok (Solution.mk (held cs (Solution.weapon solution))
                    (held cs (Solution.character solution))
                    (held cs (Solution.room solution)))
  else Raise AttributeError.
Proof.
  destruct solution as [[w|] [c|] [r|]]; try done.
  - apply compare_to_hand_complete.
  - unfold SolutionMatcher.compare_to_hand. cbn [Solution.weapon Solution.room Solution.character].
    rewrite !has_card_of_cards. simpl. by repeat case_match.
  - unfold SolutionMatcher.compare_to_hand. cbn [Solution.weapon Solution.room Solution.character].
    rewrite !has_card_of_cards. simpl. by repeat case_match.
  - unfold SolutionMatcher.compare_to_hand. cbn [Solution.weapon Solution.room Solution.character].
    rewrite !has_card_of_cards. simpl. by repeat case_match.
Qed.

(** C8, the claim as stated fails on the code: the hand holds the
    weapon 2 and the candidate has only its weapon slot set, to that
    card; the call raises instead of returning the weapon. *)
Lemma compare_to_hand_counterexample :
  SolutionMatcher.compare_to_hand (Hand.of_cards [weapon_card 2; room_card 9])
    (Solution.mk (Some (weapon_card 2)) None None) = Raise AttributeError.
Proof. reflexivity. Qed.

(** C7: for a player whose hand holds the cards [cs] and a complete
    guess, [show_card] returns [None] when none of the three cards of
    the guess is in the hand; otherwise it returns a Solution with
    exactly one slot populated: the character when the hand holds it,
    else the weapon when the hand holds it, else the room. *)
Theorem show_card_spec (self : Player.t) (cs : list Card) (w c r : Card)
    (Hhand : Player.hand self = Hand.of_cards cs) :
  let guess := Solution.mk (Some w) (Some c) (Some r) in
  Player.show_card self guess =
    Ok (if bool_decide (c ∈ cs) then Some (Solution.mk None (Some c) None)
        else if bool_decide (w ∈ cs) then Some (Solution.mk (Some w) None None)
        else if bool_decide (r ∈ cs) then Some (Solution.mk None None (Some r))
        else None)
  /\ (Player.show_card self guess = Ok None <-> (w ∉ cs) /\ (c ∉ cs) /\ (r ∉ cs))
  /\ (forall m, Player.show_card self guess = Ok (Some m) -> populated m = 1%nat).
Proof.
  cbv zeta.
  assert (Player.show_card self (Solution.mk (Some w) (Some c) (Some r)) =
    Ok (if bool_decide (c ∈ cs) then Some (Solution.mk None (Some c) None)
        else if bool_decide (w ∈ cs) then Some (Solution.mk (Some w) None None)
        else if bool_decide (r ∈ cs) then Some (Solution.mk None None (Some r))
        else None)) as Heq.
  { unfold Player.show_card. rewrite Hhand, compare_to_hand_complete. unfold held.
    by destruct (bool_decide (w ∈ cs)), (bool_decide (r ∈ cs)), (bool_decide (c ∈ cs)). }
  rewrite Heq. split_and!; [done| |].
  - destruct (bool_decide_reflect (c ∈ cs)), (bool_decide_reflect (w ∈ cs)),
      (bool_decide_reflect (r ∈ cs)); intuition congruence.
  - intros m. repeat case_bool_decide; intros [= <-]; done.
Qed.

Lemma show_card_spec_witness :
  let self := Player.mk Player.ComputerPlayerClass (Some (CharacterOf 1)) None
                (Hand.of_cards [weapon_card 2; room_card 9; character_card 4])
                (LogBook.init static_deck) (Some (RoomOf 9)) None in
  let cs := [weapon_card 2; room_card 9; character_card 4] in
  let guess := Solution.mk (Some (weapon_card 2)) (Some (character_card 3))
                 (Some (room_card 9)) in
  Player.show_card self guess =
    Ok (if bool_decide (character_card 3 ∈ cs) then
          Some (Solution.mk None (Some (character_card 3)) None)
        else if bool_decide (weapon_card 2 ∈ cs) then
          Some (Solution.mk (Some (weapon_card 2)) None None)
        else if bool_decide (room_card 9 ∈ cs) then
          Some (Solution.mk None None (Some (room_card 9)))
        else None)
  /\ (Player.show_card self guess = Ok None <->
      (weapon_card 2 ∉ cs) /\ (character_card 3 ∉ cs) /\ (room_card 9 ∉ cs))
  /\ (forall m, Player.show_card self guess = Ok (Some m) -> populated m = 1%nat).
Proof.
  apply (show_card_spec _ [weapon_card 2; room_card 9; character_card 4]).
  reflexivity.
Defined.

(** With the weapon and the room of the guess in hand, the weapon is
    the card shown. *)
Example show_card_weapon_over_room :
  Player.show_card
    (Player.mk Player.ComputerPlayerClass (Some (CharacterOf 1)) None
       (Hand.of_cards [weapon_card 2; room_card 9; character_card 4])
       (LogBook.init static_deck) (Some (RoomOf 9)) None)
    (Solution.mk (Some (weapon_card 2)) (Some (character_card 3)) (Some (room_card 9)))
  = Ok (Some (Solution.mk (Some (weapon_card 2)) None None)).
Proof. reflexivity. Qed.
(** ** The turn decision *)

(** C4: [next_turn_action] returns ACCUSATION exactly when the LogBook
    has a complete Solution, whatever the room and the position; when it
    has none, the action is MOVE for a player in no room, and otherwise
    follows [should_guess_current_room]: MOVE when that is false, GUESS
    when it is true (what that check raises is raised on).  For a
    ComputerPlayer in a room whose card is a key of the per-card map the
    check returns, and so does [next_turn_action]. *)
Theorem next_turn_action_spec (self : Player.t) :
  (Player.next_turn_action self = Ok ACCUSATION <->
   LogBook.has_solution (Player.log_book self) = true)
  /\ (LogBook.has_solution (Player.log_book self) = false ->
      Player.next_turn_action self =
      match Player.room self with
      | None => Ok MOVE
      | Some _ =>
          match Player.should_guess_current_room self with
          | Ok true => Ok GUESS
          | Ok false => Ok MOVE
          | Raise e => Raise e
          end
      end)
  /\ (forall r b,
        Player.cls self = Player.ComputerPlayerClass ->
        Player.room self = Some r ->
        dict_get (mkCard (VRoom r) ROOM) (LogBook.log_book (Player.log_book self)) = Some b ->
        exists a, Player.next_turn_action self = Ok a).
Proof.
  assert (LogBook.has_solution (Player.log_book self) = false ->
      Player.next_turn_action self =
      match Player.room self with
      | None => Ok MOVE
      | Some _ =>
          match Player.should_guess_current_room self with
          | Ok true => Ok GUESS
          | Ok false => Ok MOVE
          | Raise e => Raise e
          end
      end) as Helse.
  { intros Hno. unfold Player.next_turn_action. rewrite Hno.
    destruct (Player.room self) as [r|]; [|done].
    rewrite bool_decide_false by done.
    by destruct (Player.should_guess_current_room self) as [[|]|]. }
  split_and!; [|done|].
  - destruct (LogBook.has_solution (Player.log_book self)) eqn:Hs.
    + unfold Player.next_turn_action. by rewrite Hs.
    + rewrite Helse by done. split; [|done].
      destruct (Player.room self); [|done].
      by destruct (Player.should_guess_current_room self) as [[|]|].
  - intros r b Hcls Hroom Hkey.
    destruct (LogBook.has_solution (Player.log_book self)) eqn:Hs.
    { exists ACCUSATION. unfold Player.next_turn_action. by rewrite Hs. }
    rewrite Helse, Hroom by done.
    unfold Player.should_guess_current_room, Player.ComputerPlayer_should_guess_current_room.
    rewrite Hcls, Hroom. unfold LogBook.is_room_known, dict_getitem. rewrite Hkey. simpl.
    destruct b; simpl; [|by eauto].
    case_bool_decide; simpl; [|by eauto]. case_bool_decide; eauto.
Qed.

(** ** Moving along a path *)

Lemma move_steps_app ps qs self :
  Forall recognized ps ->
  Player.move_steps (ps ++ qs) self =
  Player.move_steps qs (foldl (fun s p => exec (Player.move_step p) s) self ps).
Proof.
  intros Hps. revert self. induction Hps as [|p ps Hp _ IH]; intros self; [done|].
  simpl. unfold mbind, M_bind. destruct p; [| |by destruct Hp]; simpl; apply IH.
Qed.

(** C5: [move_path] raises "Path is longer than roll" exactly when the
    distance of the path exceeds the roll, and then the player is as
    before the call; on a path of recognized steps that is the only way
    it raises.  Otherwise it takes the steps in order: a path of
    recognized steps is walked to its end and the call returns; a free
    space sets the coordinate and clears the room, a room entry sets the
    room and clears the coordinate; at a step of any other kind the call
    raises (the NameError of the misspelt [Expection]), the steps before
    it having been taken. *)
Theorem move_path_spec (roll : Z) (room_path : RoomPath.t) (self : Player.t) :
  let walk := foldl (fun s p => exec (Player.move_step p) s) in
  (eval (Player.move_path roll room_path) self = Raise (Exception "Path is longer than roll")
   <-> RoomPath.distance room_path > roll)
  /\ (RoomPath.distance room_path > roll ->
      exec (Player.move_path roll room_path) self = self)
  /\ (Forall recognized (RoomPath.path room_path) ->
      ((exists e, eval (Player.move_path roll room_path) self = Raise e)
       <-> RoomPath.distance room_path > roll))
  /\ (RoomPath.distance room_path <= roll ->
      Forall recognized (RoomPath.path room_path) ->
      Player.move_path roll room_path self = (Ok tt, walk self (RoomPath.path room_path)))
  /\ (forall ps qs,
        RoomPath.distance room_path <= roll ->
        RoomPath.path room_path = ps ++ OtherStep :: qs ->
        Forall recognized ps ->
        Player.move_path roll room_path self = (Raise (NameError "Expection"), walk self ps))
  /\ (forall s row col,
        let s' := exec (Player.move_step (Space row col)) s in
        Player.position s' = Some (row, col) /\ Player.room s' = None)
  /\ (forall s room,
        let s' := exec (Player.move_step (RoomPosition room)) s in
        s' = Player.enter_room room s
        /\ Player.room s' = Some room /\ Player.position s' = None).
Proof.
  cbv zeta. unfold Player.move_path, eval.
  assert (forall (l : list Step) s,
    fst (Player.move_steps l s) <> Raise (Exception "Path is longer than roll")) as Hsteps.
  { induction l as [|p ps IH]; intros s; [done|].
    simpl. unfold mbind, M_bind. destruct p; simpl; try done; apply IH. }
  split_and!.
  - destruct (decide _) as [Hlt|Hge]; simpl; [split; [lia|done]|].
    split; [|lia]. intros Hraise. by apply Hsteps in Hraise.
  - intros Hgt. unfold exec. by rewrite decide_True by lia.
  - intros Hrec. destruct (decide _) as [Hlt|Hge]; simpl; [split; [lia|by eauto]|].
    split; [|lia]. intros [e He]. exfalso. revert He.
    rewrite <- (app_nil_r (RoomPath.path room_path)).
    by rewrite move_steps_app.
  - intros Hle Hrec. rewrite decide_False by lia.
    rewrite <- (app_nil_r (RoomPath.path room_path)) at 1.
    by rewrite move_steps_app.
  - intros ps qs Hle -> Hrec. rewrite decide_False by lia.
    by rewrite move_steps_app.
  - done.
  - intros s room. unfold exec. simpl. unfold Player.enter_room.
    by destruct (Player.cls s).
Qed.
Example move_path_example :
  let self := Player.mk Player.ComputerPlayerClass (Some (CharacterOf 1)) (Some (7, 7))
                Hand.init (LogBook.init static_deck) None None in
  Player.move_path 3 (RoomPath.mk (RoomOf 4) [Space 7 8; Space 7 9; RoomPosition (RoomOf 4)] 3) self
  = (Ok tt, Player.set_position None (Player.set_room (Some (RoomOf 4)) self))
  /\ Player.move_path 2 (RoomPath.mk (RoomOf 4) [Space 7 8; Space 7 9; RoomPosition (RoomOf 4)] 3) self
     = (Raise (Exception "Path is longer than roll"), self)
  /\ Player.move_path 3 (RoomPath.mk (RoomOf 4) [Space 7 8; OtherStep; RoomPosition (RoomOf 4)] 3) self
     = (Raise (NameError "Expection"), Player.set_position (Some (7, 8)) self).
Proof. repeat split; reflexivity. Qed.

(** ** Splitting a path over several turns *)

Lemma slice_to_nonneg {A} (l : list A) (n : Z) : 0 <= n -> slice_to l n = take (Z.to_nat n) l.
Proof. intros Hn. unfold slice_to. by rewrite decide_True. Qed.

Lemma slice_from_nonneg {A} (l : list A) (n : Z) : 0 <= n -> slice_from l n = drop (Z.to_nat n) l.
Proof. intros Hn. unfold slice_from. by rewrite decide_True. Qed.

(** C6: for a ComputerPlayer and a roll [r] at least 0, on the path
    [p] that [use_roll] works on (the remainder kept from the previous
    turns, or else the path drawn among the board's answers): when the
    distance of [p] exceeds [r], [use_roll] returns the path of the
    first [r] steps of [p] with the room of [p] and keeps the path of
    the other steps, with the same room, as the remainder; when the
    distance is at most [r] it returns [p] itself and the remainder is
    [None] afterwards.  [enter_room] sets the remainder to [None]. *)
Theorem use_roll_split (P : Paths) (rnd : nat) (roll : Z) (self : Player.t)
    (p : RoomPath.t)
    (Hcls : Player.cls self = Player.ComputerPlayerClass)
    (Hroll : 0 <= roll)
    (Hp : working_path P rnd self = Ok p) :
  (RoomPath.distance p > roll ->
   let first := RoomPath_new P (RoomPath.room p) (take (Z.to_nat roll) (RoomPath.path p)) in
   let rest := RoomPath_new P (RoomPath.room p) (drop (Z.to_nat roll) (RoomPath.path p)) in
   Player.use_roll P rnd roll self = (Ok first, Player.set_remaining_path (Some rest) self)
   /\ RoomPath.room first = RoomPath.room p /\ RoomPath.room rest = RoomPath.room p
   /\ RoomPath.path first ++ RoomPath.path rest = RoomPath.path p)
  /\ (RoomPath.distance p <= roll ->
      Player.use_roll P rnd roll self = (Ok p, Player.set_remaining_path None self))
  /\ (forall room s,
        Player.cls s = Player.ComputerPlayerClass ->
        Player.remaining_path (Player.enter_room room s) = None
        /\ Player.room (Player.enter_room room s) = Some room).
Proof.
  unfold working_path in Hp. split_and!.
  - intros Hgt. cbv zeta. split_and!; try done; [|apply take_drop].
    unfold Player.use_roll. rewrite Hcls. unfold Player.ComputerPlayer_use_roll.
    destruct (Player.remaining_path self) as [rp|] eqn:Hrem.
    + injection Hp as ->. rewrite bool_decide_true by done.
      unfold Player._use_remaining_roll. rewrite Hrem, decide_True by done.
      by rewrite slice_to_nonneg, slice_from_nonneg.
    + rewrite bool_decide_false by (by intros []).
      unfold board_paths in Hp. rewrite Hp, decide_True by done.
      by rewrite slice_to_nonneg, slice_from_nonneg.
  - intros Hle. unfold Player.use_roll. rewrite Hcls. unfold Player.ComputerPlayer_use_roll.
    destruct (Player.remaining_path self) as [rp|] eqn:Hrem.
    + injection Hp as ->. rewrite bool_decide_true by done.
      unfold Player._use_remaining_roll. rewrite Hrem, decide_False by lia. done.
    + rewrite bool_decide_false by (by intros []).
      unfold board_paths in Hp. rewrite Hp, decide_False by lia.
      f_equal. destruct self; simpl in *; by subst.
  - intros room s Hs. unfold Player.enter_room. by rewrite Hs.
Qed.

Lemma use_roll_split_witness :
  let P := mkPaths (fun _ path => Z.of_nat (length path))
             (fun _ _ _ => []) (fun _ _ => []) in
  let p := RoomPath.mk (RoomOf 4)
             [Space 7 8; Space 7 9; Space 7 10; Space 7 11; RoomPosition (RoomOf 4)] 5 in
  let self := Player.mk Player.ComputerPlayerClass (Some (CharacterOf 1)) (Some (7, 7))
                Hand.init (LogBook.init static_deck) None (Some p) in
  (RoomPath.distance p > 3 ->
   let first := RoomPath_new P (RoomPath.room p) (take (Z.to_nat 3) (RoomPath.path p)) in
   let rest := RoomPath_new P (RoomPath.room p) (drop (Z.to_nat 3) (RoomPath.path p)) in
   Player.use_roll P 0 3 self = (Ok first, Player.set_remaining_path (Some rest) self)
   /\ RoomPath.room first = RoomPath.room p /\ RoomPath.room rest = RoomPath.room p
   /\ RoomPath.path first ++ RoomPath.path rest = RoomPath.path p)
  /\ (RoomPath.distance p <= 3 ->
      Player.use_roll P 0 3 self = (Ok p, Player.set_remaining_path None self))
  /\ (forall room s,
        Player.cls s = Player.ComputerPlayerClass ->
        Player.remaining_path (Player.enter_room room s) = None
        /\ Player.room (Player.enter_room room s) = Some room).
Proof.
  apply (use_roll_split
           (mkPaths (fun _ path => Z.of_nat (length path)) (fun _ _ _ => []) (fun _ _ => []))
           0%nat 3).
  - reflexivity.
  - lia.
  - reflexivity.
Defined.

(** The scenario of the spec: a roll of 3 on a path of distance 5 leaves
    a remainder of 2 steps; a roll of 2 on the next turn completes it,
    the player enters the room and the remainder is cleared.  The
    distance of a path is taken to be its number of steps. *)
Example use_roll_two_turns :
  let P := mkPaths (fun _ path => Z.of_nat (length path))
             (fun _ _ => fun _ =>
                [RoomPath.mk (RoomOf 4)
                   [Space 7 8; Space 7 9; Space 7 10; Space 7 11; RoomPosition (RoomOf 4)] 5])
             (fun _ _ => []) in
  let self := Player.mk Player.ComputerPlayerClass (Some (CharacterOf 1)) (Some (7, 7))
                Hand.init (LogBook.init static_deck) None None in
  let turn roll : M Player.t unit :=
    path ← Player.use_roll P 0 roll; Player.move_path roll path in
  let self1 := exec (turn 3) self in
  let self2 := exec (turn 2) self1 in
  Player.position self1 = Some (7, 10) /\ Player.room self1 = None
  /\ (RoomPath.distance <$> Player.remaining_path self1) = Some 2
  /\ Player.room self2 = Some (RoomOf 4) /\ Player.position self2 = None
  /\ Player.remaining_path self2 = None.
Proof. vm_compute. repeat split; reflexivity. Qed.
(** * Further properties *)

(** ** Hand *)

(** X1: after [add(c)] the hand holds [c]; it holds any other card
    exactly when it held it before.  [has_card] of a card always
    returns. *)
Theorem Hand_add_has_card (h : Hand.t) (c c' : Card) :
  Hand.has_card (Hand.add c h) (Some c) = Ok true
  /\ (c' <> c -> Hand.has_card (Hand.add c h) (Some c') = Hand.has_card h (Some c'))
  /\ (exists b, Hand.has_card h (Some c') = Ok b).
Proof.
  split_and!.
  - unfold Hand.has_card, Hand.add. destruct (type c) eqn:Ht; simpl; f_equal;
      apply bool_decide_eq_true; apply elem_of_app; right; by apply list_elem_of_singleton.
  - intros Hne. unfold Hand.has_card, Hand.add.
    destruct (type c), (type c'); simpl; try done; f_equal; apply bool_decide_ext;
      rewrite elem_of_app, list_elem_of_singleton; tauto.
  - unfold Hand.has_card. destruct (type c'); eauto.
Qed.

Lemma filter_types_Permutation (cs : list Card) :
  cs ≡ₚ filter (fun c => type c = WEAPON) cs ++ filter (fun c => type c = ROOM) cs
        ++ filter (fun c => type c = CHARACTER) cs.
Proof.
  induction cs as [|c cs IH]; [done|]. rewrite !filter_cons.
  destruct (type c) eqn:Ht; repeat case_decide; try done; simpl.
  - by f_equiv.
  - rewrite <- Permutation_middle. by f_equiv.
  - rewrite app_assoc, <- Permutation_middle, <- app_assoc. by f_equiv.
Qed.

(** X2: a hand built from [Hand()] by [add] keeps the cards in the
    order given in [all], and its three category lists partition them:
    each holds, in the order given, the cards of its category, and
    together they hold the cards of [all], each as often. *)
Theorem Hand_of_cards_partition (cs : list Card) :
  let h := Hand.of_cards cs in
  Hand.all h = cs
  /\ hand_consistent h
  /\ Hand.all h ≡ₚ Hand.weapons h ++ Hand.rooms h ++ Hand.characters h
  /\ Forall (fun c => type c = WEAPON) (Hand.weapons h)
  /\ Forall (fun c => type c = ROOM) (Hand.rooms h)
  /\ Forall (fun c => type c = CHARACTER) (Hand.characters h).
Proof.
  cbv zeta. unfold Hand.of_cards, hand_consistent.
  destruct (Hand_add_fold cs Hand.init) as (Hw & Hr & Hc & Ha). simpl in *.
  rewrite Hw, Hr, Hc, Ha. split_and!; try done.
  - apply filter_types_Permutation.
  - apply Forall_forall. by intros c [? _]%list_elem_of_filter.
  - apply Forall_forall. by intros c [? _]%list_elem_of_filter.
  - apply Forall_forall. by intros c [? _]%list_elem_of_filter.
Qed.

(** ** LogBook() *)

Lemma dict_get_init_fold deck d c :
  dict_get c (foldl (fun d card => dict_set card false d) d deck) =
  if bool_decide (c ∈ deck) then Some false else dict_get c d.
Proof.
  revert d. induction deck as [|c0 deck IH]; intros d; [done|].
  simpl. rewrite IH. destruct (decide (c = c0)) as [->|Hne].
  - rewrite dict_get_set_eq.
    rewrite (bool_decide_true (c0 ∈ c0 :: deck)) by (apply elem_of_cons; by left).
    by case_bool_decide.
  - rewrite dict_get_set_ne by done.
    assert (bool_decide (c ∈ deck) = bool_decide (c ∈ c0 :: deck)) as ->; [|done].
    apply bool_decide_ext. rewrite elem_of_cons. tauto.
Qed.

Lemma dict_set_all_false k d :
  Forall (fun e : Card * bool => e.2 = false) d ->
  Forall (fun e : Card * bool => e.2 = false) (dict_set k false d).
Proof.
  induction 1 as [|[k' v'] d Hv Hd IH]; simpl.
  - by repeat constructor.
  - destruct (decide (k = k')); constructor; done.
Qed.

Lemma dict_init_all_false deck :
  Forall (fun e : Card * bool => e.2 = false)
    (foldl (fun d card => dict_set card false d) [] deck).
Proof.
  assert (forall d, Forall (fun e : Card * bool => e.2 = false) d ->
    Forall (fun e : Card * bool => e.2 = false)
      (foldl (fun d card => dict_set card false d) d deck)) as Hgen.
  { induction deck as [|c deck IH]; simpl; [done|]. intros d Hd. by apply IH, dict_set_all_false. }
  by apply Hgen.
Qed.

(** X3: the LogBook that [LogBook()] builds over a deck has a
    per-card map whose keys are the cards of the deck, each once and
    none eliminated: a lookup gives [False] for a deck card and fails
    for any other, [get(k, False)] lists the deck's cards of category
    [k], [get(k, True)] is empty, and no Solution is held. *)
Theorem LogBook_init_spec (deck : list Card) :
  let lb := LogBook.init deck in
  dict_wf (LogBook.log_book lb)
  /\ (forall c, dict_getitem (LogBook.log_book lb) (Some c) =
                if bool_decide (c ∈ deck) then Ok false else Raise KeyError)
  /\ (forall k c, c ∈ LogBook.get k false lb <-> c ∈ deck /\ type c = k)
  /\ (forall k, LogBook.get k true lb = [])
  /\ LogBook.solution lb = Solution.mk None None None
  /\ LogBook.has_solution lb = false.
Proof.
  cbv zeta. pose proof (dict_init_wf deck) as Hwf.
  assert (forall c, dict_get c (LogBook.log_book (LogBook.init deck)) =
                    if bool_decide (c ∈ deck) then Some false else None) as Hget.
  { intros c. simpl. by rewrite dict_get_init_fold. }
  split_and!; try done.
  - intros c. unfold dict_getitem. rewrite Hget. by case_bool_decide.
  - intros k c. rewrite elem_of_get. split.
    + intros [Hin Ht]. split; [|done]. apply (dict_wf_entry_get _ _ _ Hwf) in Hin.
      rewrite Hget in Hin. by case_bool_decide.
    + intros [Hin Ht]. split; [|done]. apply dict_get_entry. rewrite Hget.
      by rewrite bool_decide_true.
  - intros k. unfold LogBook.get. simpl. clear Hwf Hget.
    pose proof (dict_init_all_false deck) as Hall.
    induction Hall as [|[c v] d Hv Hd IH]; [done|].
    rewrite filter_cons. simpl in *. subst v. rewrite decide_False by (by intros [_ ?]).
    apply IH.
Qed.
(** ** LogBook.log *)

Lemma dict_set_keys k v d c : c ∈ (dict_set k v d).*1 <-> c = k \/ c ∈ d.*1.
Proof.
  destruct (decide (k ∈ d.*1)) as [Hin|Hin].
  - rewrite dict_set_keys_old by done. split; [by right|]. by intros [->|?].
  - rewrite dict_set_keys_new by done. rewrite elem_of_app, list_elem_of_singleton. tauto.
Qed.

(** X4: after [log(c)], whether it returned or raised, [c] is marked
    eliminated in the per-card map and [get(type, True)] reports it; the
    keys of the map are those it had, and [c]. *)
Theorem log_marks (c : Card) (lb : LogBook.t) :
  let lb' := exec (LogBook.log (Some c)) lb in
  eliminated lb' c
  /\ c ∈ LogBook.get (type c) true lb'
  /\ (forall c', c' ∈ keys lb' <-> c' = c \/ c' ∈ keys lb).
Proof.
  cbv zeta. unfold eliminated, keys. rewrite exec_log_log_book. split_and!.
  - apply dict_get_set_eq.
  - apply elem_of_get. rewrite exec_log_log_book. split; [|done].
    apply dict_get_entry, dict_get_set_eq.
  - intros c'. apply dict_set_keys.
Qed.

Lemma log_state_array c k lb : array k (log_state c lb) = array k lb.
Proof. unfold log_state. rewrite deduce_array. by destruct k. Qed.

Lemma np_setitem_length a i v a' :
  np_setitem a i v = Ok a' -> length (nd_data a') = length (nd_data a).
Proof.
  unfold np_setitem. repeat case_decide; try done; intros [= <-]; simpl;
    by rewrite ?length_insert.
Qed.


Lemma filter_dict_set_candidate c d k :
  dict_get c d = Some false -> type c = k ->
  S (length (filter (fun e : Card * bool => type e.1 = k /\ e.2 = false) (dict_set c true d)))
  = length (filter (fun e : Card * bool => type e.1 = k /\ e.2 = false) d).
Proof.
  intros Hget HP. induction d as [|[k' v] d IH]; simpl in *; [done|].
  destruct (decide (c = k')) as [->|Hne].
  - injection Hget as ->. rewrite !filter_cons. simpl.
    rewrite decide_False by (by intros [_ ?]). by rewrite decide_True.
  - rewrite !filter_cons. simpl. case_decide; simpl; by rewrite <- IH.
Qed.

Lemma filter_dict_set_other c d k :
  dict_get c d <> Some false \/ type c <> k ->
  filter (fun e : Card * bool => type e.1 = k /\ e.2 = false) (dict_set c true d)
  = filter (fun e : Card * bool => type e.1 = k /\ e.2 = false) d.
Proof.
  intros Hc. induction d as [|[k' v] d IH]; simpl in *.
  - rewrite filter_cons. by rewrite decide_False by (by intros [_ ?]).
  - destruct (decide (c = k')) as [->|Hne].
    + rewrite !filter_cons. simpl. rewrite decide_False by (by intros [_ ?]).
      rewrite decide_False; [done|]. intros [? ->]. destruct Hc as [Hc|Hc]; by apply Hc.
    + rewrite !filter_cons. simpl. rewrite IH by done. done.
Qed.

(** X6: logging a card that is a candidate (in the map and not
    eliminated) takes exactly one card off the candidates of its
    category; logging any other card leaves that list as it was; the
    candidates of the other categories are never touched. *)
Theorem log_candidates_count (c : Card) (lb : LogBook.t) :
  let lb' := exec (LogBook.log (Some c)) lb in
  (candidate lb c ->
   S (length (LogBook.get (type c) false lb')) = length (LogBook.get (type c) false lb))
  /\ (~ candidate lb c -> LogBook.get (type c) false lb' = LogBook.get (type c) false lb)
  /\ (forall k, k <> type c -> LogBook.get k false lb' = LogBook.get k false lb).
Proof.
  cbv zeta. unfold LogBook.get, candidate. rewrite exec_log_log_book. split_and!.
  - intros Hc. rewrite !length_fmap.
    by apply filter_dict_set_candidate.
  - intros Hc. f_equal.
    apply filter_dict_set_other. by left.
  - intros k Hne. f_equal.
    apply filter_dict_set_other. right. congruence.
Qed.

(** ** LogBook.get *)

(** X7: in a per-card map that holds each key once, every key of
    category [k] is reported by exactly one of [get(k, True)] and
    [get(k, False)], and neither reports anything else. *)
Theorem get_partition (lb : LogBook.t) (k : CardType) (c : Card)
    (Hwf : dict_wf (LogBook.log_book lb)) :
  (c ∈ LogBook.get k true lb \/ c ∈ LogBook.get k false lb <-> c ∈ keys lb /\ type c = k)
  /\ ~ (c ∈ LogBook.get k true lb /\ c ∈ LogBook.get k false lb)
  /\ (c ∈ LogBook.get k true lb <-> eliminated lb c /\ type c = k)
  /\ (c ∈ LogBook.get k false lb <-> candidate lb c /\ type c = k).
Proof.
  unfold keys, eliminated, candidate. rewrite !elem_of_get.
  assert (forall b, (c, b) ∈ LogBook.log_book lb <-> dict_get c (LogBook.log_book lb) = Some b)
    as Hent.
  { intros b. split; [by apply dict_wf_entry_get|by apply dict_get_entry]. }
  rewrite !Hent. split_and!; try tauto.
  - split.
    + intros [[H ?]|[H ?]]; (split; [|done]); apply dict_get_entry in H;
        apply list_elem_of_fmap; by eexists (_, _).
    + intros [Hin Ht]. apply list_elem_of_fmap in Hin as [[c' b] [-> Hin]]. simpl in *.
      apply Hent in Hin. destruct b; tauto.
  - intros [[H1 _] [H2 _]]. congruence.
Qed.

Lemma get_partition_witness :
  let lb := exec (LogBook.log (Some (room_card 2))) (LogBook.init static_deck) in
  (room_card 2 ∈ LogBook.get ROOM true lb \/ room_card 2 ∈ LogBook.get ROOM false lb
     <-> room_card 2 ∈ keys lb /\ type (room_card 2) = ROOM)
  /\ ~ (room_card 2 ∈ LogBook.get ROOM true lb /\ room_card 2 ∈ LogBook.get ROOM false lb)
  /\ (room_card 2 ∈ LogBook.get ROOM true lb <-> eliminated lb (room_card 2) /\ type (room_card 2) = ROOM)
  /\ (room_card 2 ∈ LogBook.get ROOM false lb <-> candidate lb (room_card 2) /\ type (room_card 2) = ROOM).
Proof.
  apply (get_partition (exec (LogBook.log (Some (room_card 2))) (LogBook.init static_deck))).
  unfold dict_wf. apply (bool_decide_unpack _). vm_compute. exact I.
Defined.
(** ** LogBook.found_solution and a complete Solution *)

Lemma adopt_settled_noop k s lb : settled k s lb -> adopt k s lb = (Ok tt, lb).
Proof.
  unfold settled, adopt. intros [Hset|Helim].
  - by destruct (Solution.slot k (LogBook.solution lb)).
  - destruct (Solution.slot k (LogBook.solution lb)); [done|]. by rewrite Helim.
Qed.

(** When one [if] statement of [found_solution] returns, its slot is
    settled, the map is as before, and so are the other slots. *)
Lemma adopt_ok k s lb lb' :
  adopt k s lb = (Ok tt, lb') ->
  settled k s lb'
  /\ LogBook.log_book lb' = LogBook.log_book lb
  /\ (forall k', k' <> k ->
        Solution.slot k' (LogBook.solution lb') = Solution.slot k' (LogBook.solution lb))
  /\ (forall k', Solution.slot k' (LogBook.solution lb) <> None ->
        Solution.slot k' (LogBook.solution lb') <> None).
Proof.
  unfold adopt, settled.
  destruct (Solution.slot k (LogBook.solution lb)) as [x|] eqn:Hk.
  { intros [= <-]. rewrite Hk. split_and!; auto. }
  destruct (dict_getitem _ _) as [[|]|] eqn:Hget; try done.
  { intros [= <-]. split_and!; auto. }
  destruct (LogBook.character_index s); [|done].
  destruct (np_setitem _ _ _); [|done]. intros [= <-].
  assert (Solution.slot k s <> None) as Hs.
  { intros Hs. by rewrite Hs in Hget. }
  split_and!.
  - left. destruct k; simpl; by rewrite ?slot_set_slot.
  - by destruct k.
  - intros k' Hne. destruct k, k'; done.
  - intros k' Hk'. destruct (decide (k' = k)) as [->|Hne]; [by destruct k|].
    by destruct k, k'.
Qed.

Lemma found_solution_unfold s lb :
  LogBook.found_solution s lb =
  match adopt CHARACTER s lb with
  | (Ok _, lb1) =>
      match adopt WEAPON s lb1 with
      | (Ok _, lb2) => adopt ROOM s lb2
      | (Raise e, lb2) => (Raise e, lb2)
      end
  | (Raise e, lb1) => (Raise e, lb1)
  end.
Proof.
  unfold LogBook.found_solution, mbind, M_bind.
  rewrite found_solution_character_eq. destruct (adopt CHARACTER s lb) as [[[]|e] lb1]; [|done].
  rewrite found_solution_weapon_eq. destruct (adopt WEAPON s lb1) as [[[]|e] lb2]; [|done].
  apply found_solution_room_eq.
Qed.

Lemma settled_keep k s lb lb' :
  LogBook.log_book lb' = LogBook.log_book lb ->
  (forall k', Solution.slot k' (LogBook.solution lb) <> None ->
     Solution.slot k' (LogBook.solution lb') <> None) ->
  settled k s lb -> settled k s lb'.
Proof. unfold settled. intros -> Hkeep [?|?]; auto. Qed.

(** X8: once the Solution is complete, [find_solution] and
    [found_solution] return and leave the whole LogBook as it was,
    whatever their argument, and [log] leaves the Solution as it was. *)
Theorem complete_solution_is_final (lb : LogBook.t) (k : CardType) (s : Solution.t)
    (c : option Card)
    (Hcomplete : LogBook.has_solution lb = true) :
  LogBook.find_solution k lb = (Ok tt, lb)
  /\ LogBook.found_solution s lb = (Ok tt, lb)
  /\ LogBook.solution (exec (LogBook.log c) lb) = LogBook.solution lb.
Proof.
  unfold LogBook.has_solution in Hcomplete.
  assert (forall k', settled k' s lb) as Hset.
  { intros k'. left. by apply is_complete_slot. }
  split_and!.
  - rewrite find_solution_eq. unfold deduce. by rewrite Hcomplete.
  - rewrite found_solution_unfold. by rewrite !adopt_settled_noop.
  - destruct c as [c|]; [|done]. rewrite exec_log_solution. unfold log_state, deduce.
    simpl. by rewrite Hcomplete.
Qed.

Lemma complete_solution_is_final_witness :
  let cand := Solution.mk (Some (weapon_card 2)) (Some (character_card 3))
                (Some (room_card 9)) in
  let other := Solution.mk (Some (weapon_card 1)) None (Some (room_card 1)) in
  let lb := exec (LogBook.found_solution cand) (LogBook.init static_deck) in
  LogBook.find_solution WEAPON lb = (Ok tt, lb)
  /\ LogBook.found_solution other lb = (Ok tt, lb)
  /\ LogBook.solution (exec (LogBook.log (Some (weapon_card 2))) lb) = LogBook.solution lb.
Proof.
  apply (complete_solution_is_final
           (exec (LogBook.found_solution
                    (Solution.mk (Some (weapon_card 2)) (Some (character_card 3))
                       (Some (room_card 9))))
                 (LogBook.init static_deck))).
  vm_compute. reflexivity.
Defined.

(** X9: when [found_solution(s)] returns, calling it again with the
    same [s] returns and changes nothing. *)
Theorem found_solution_idempotent (s : Solution.t) (lb : LogBook.t)
    (Hok : eval (LogBook.found_solution s) lb = Ok tt) :
  LogBook.found_solution s (exec (LogBook.found_solution s) lb)
  = (Ok tt, exec (LogBook.found_solution s) lb).
Proof.
  revert Hok. unfold eval, exec. rewrite (found_solution_unfold s lb).
  destruct (adopt CHARACTER s lb) as [[[]|e] lb1] eqn:H1; [|done].
  destruct (adopt WEAPON s lb1) as [[[]|e] lb2] eqn:H2; [|done].
  destruct (adopt ROOM s lb2) as [[[]|e] lb3] eqn:H3; [|done]. intros _. simpl.
  apply adopt_ok in H1 as (S1 & D1 & _ & K1).
  apply adopt_ok in H2 as (S2 & D2 & _ & K2).
  apply adopt_ok in H3 as (S3 & D3 & _ & K3).
  assert (settled CHARACTER s lb3) as Hc.
  { apply (settled_keep _ _ lb2); [done|done|]. by apply (settled_keep _ _ lb1). }
  assert (settled WEAPON s lb3) as Hw by (by apply (settled_keep _ _ lb2)).
  rewrite found_solution_unfold. by rewrite !adopt_settled_noop.
Qed.

Lemma found_solution_idempotent_witness :
  let s := Solution.mk (Some (weapon_card 2)) (Some (character_card 3))
             (Some (room_card 9)) in
  let lb := exec (LogBook.log (Some (room_card 9))) (LogBook.init static_deck) in
  LogBook.found_solution s (exec (LogBook.found_solution s) lb)
  = (Ok tt, exec (LogBook.found_solution s) lb).
Proof.
  apply (found_solution_idempotent
           (Solution.mk (Some (weapon_card 2)) (Some (character_card 3)) (Some (room_card 9)))
           (exec (LogBook.log (Some (room_card 9))) (LogBook.init static_deck))).
  vm_compute. reflexivity.
Defined.

Lemma eval_log_out_of_range c lb :
  fits_C_long (enum_value (value c) - 1) -> ~ index_in_range lb c ->
  eval (LogBook.log (Some c)) lb = Raise IndexError.
Proof.
  unfold eval, index_in_range. rewrite log_eq, log_state_array. unfold np_setitem.
  intros Hfit Hout. repeat case_decide; simpl; try done; lia.
Qed.

(** X10: when [found_solution] returns having adopted the room (the
    room slot was unset and the candidate's room not eliminated), the
    rooms array it leaves has six entries; a later [log] of a room card
    numbered 7, 8 or 9 marks the card in the per-card map and then
    raises IndexError. *)
Theorem log_room_after_found_solution (s : Solution.t) (lb : LogBook.t) (r c : Card)
    (Hok : eval (LogBook.found_solution s) lb = Ok tt)
    (Hunset : Solution.room (LogBook.solution lb) = None)
    (Hroom : Solution.room s = Some r)
    (Hcand : candidate lb r)
    (Hc : type c = ROOM)
    (Hval : 7 <= enum_value (value c) <= 9) :
  let lb' := exec (LogBook.found_solution s) lb in
  length (nd_data (LogBook.rooms lb')) = 6%nat
  /\ eval (LogBook.log (Some c)) lb' = Raise IndexError
  /\ eliminated (exec (LogBook.log (Some c)) lb') c.
Proof.
  cbv zeta.
  assert (length (nd_data (LogBook.rooms (exec (LogBook.found_solution s) lb))) = 6%nat) as Hlen.
  { revert Hok. unfold eval, exec. rewrite (found_solution_unfold s lb).
    destruct (adopt CHARACTER s lb) as [[[]|e] lb1] eqn:H1; [|done].
    destruct (adopt WEAPON s lb1) as [[[]|e] lb2] eqn:H2; [|done].
    apply adopt_ok in H1 as (_ & D1 & O1 & _).
    apply adopt_ok in H2 as (_ & D2 & O2 & _).
    assert (Solution.slot ROOM (LogBook.solution lb2) = None) as Hslot.
    { rewrite O2, O1 by done. done. }
    assert (dict_getitem (LogBook.log_book lb2) (Solution.slot ROOM s) = Ok false) as Hget.
    { rewrite D2, D1. simpl. rewrite Hroom. unfold candidate in Hcand. simpl. by rewrite Hcand. }
    unfold adopt. rewrite Hslot, Hget.
    destruct (LogBook.character_index s); [|done].
    destruct (np_setitem _ _ _) as [arr|] eqn:Hset; [|done]. intros _. simpl.
    by apply np_setitem_length in Hset. }
  split_and!; [done| |].
  - apply eval_log_out_of_range; [unfold fits_C_long; lia|].
    unfold index_in_range. rewrite Hc. simpl. rewrite Hlen. lia.
  - unfold eliminated. rewrite exec_log_log_book. apply dict_get_set_eq.
Qed.

Lemma log_room_after_found_solution_witness :
  let s := Solution.mk (Some (weapon_card 2)) (Some (character_card 3))
             (Some (room_card 4)) in
  let lb' := exec (LogBook.found_solution s) (LogBook.init static_deck) in
  length (nd_data (LogBook.rooms lb')) = 6%nat
  /\ eval (LogBook.log (Some (room_card 8))) lb' = Raise IndexError
  /\ eliminated (exec (LogBook.log (Some (room_card 8))) lb') (room_card 8).
Proof.
  apply (log_room_after_found_solution
           (Solution.mk (Some (weapon_card 2)) (Some (character_card 3)) (Some (room_card 4)))
           (LogBook.init static_deck) (room_card 4) (room_card 8)).
  - vm_compute. reflexivity.
  - reflexivity.
  - reflexivity.
  - vm_compute. reflexivity.
  - reflexivity.
  - simpl. lia.
Defined.
(** ** Slots deduced by elimination *)

Lemma deduce_typed deck k lb :
  candidates_in deck lb -> slots_typed deck lb -> slots_typed deck (deduce k lb).
Proof.
  intros Hc Ht k' x. unfold deduce.
  destruct (Solution.is_complete _); [by apply Ht|].
  destruct (Solution.slot k (LogBook.solution lb)) eqn:Hk; [by apply Ht|].
  destruct (LogBook.get k false lb) as [|r [|]] eqn:Hg; [by apply Ht| |by apply Ht].
  simpl. destruct (decide (k' = k)) as [->|Hne].
  - rewrite slot_set_slot. intros [= <-].
    assert (r ∈ LogBook.get k false lb) as Hr by (rewrite Hg; by apply list_elem_of_singleton).
    apply elem_of_get in Hr as [Hr ?]. split; [done|by apply Hc].
  - rewrite slot_set_slot_ne by done. apply Ht.
Qed.

Lemma run_op_typed deck op lb :
  is_found_solution op = false ->
  candidates_in deck lb /\ slots_typed deck lb ->
  candidates_in deck (run_op op lb) /\ slots_typed deck (run_op op lb).
Proof.
  intros Hop [Hc Ht]. split.
  - intros c. rewrite run_op_log_book. destruct op as [[c'|]| | | | |]; try apply Hc.
    intros Hin. apply dict_set_false_entry in Hin. by apply Hc.
  - destruct op as [[c|]| | | | |]; try done; cbn [run_op].
    + intros k x. rewrite exec_log_solution. apply deduce_typed.
      * intros c' Hin. apply dict_set_false_entry in Hin. by apply Hc.
      * done.
    + unfold exec. rewrite find_solution_eq. by apply deduce_typed.
Qed.

(** X11: on a LogBook built by [LogBook()] over a deck and driven by
    any operations other than [found_solution], a Solution slot that is
    set holds a card of the deck, of the slot's own category, and the
    cards reported by [get(k, False)] are cards of the deck. *)
Theorem deduced_slots_typed (deck : list Card) (ops : list LogBookOp)
    (Hops : existsb is_found_solution ops = false) :
  let lb := run ops (LogBook.init deck) in
  slots_typed deck lb
  /\ (forall k c, c ∈ LogBook.get k false lb -> c ∈ deck /\ type c = k).
Proof.
  cbv zeta.
  assert (candidates_in deck (run ops (LogBook.init deck))
          /\ slots_typed deck (run ops (LogBook.init deck))) as [Hc Ht].
  { assert (candidates_in deck (LogBook.init deck) /\ slots_typed deck (LogBook.init deck)) as Hinit.
    { split.
      - intros c Hin. apply dict_wf_entry_get in Hin; [|apply dict_init_wf].
        simpl in Hin. rewrite dict_get_init_fold in Hin. by case_bool_decide.
      - intros k x. by destruct k. }
    revert Hinit Hops. generalize (LogBook.init deck).
    induction ops as [|op ops IH]; intros lb Hlb Hops; [done|].
    simpl in Hops. apply orb_false_iff in Hops as [Hop Hops].
    simpl. apply IH; [|done]. by apply run_op_typed. }
  split; [done|]. intros k c [Hin ?]%elem_of_get. split; [by apply Hc|done].
Qed.

Lemma deduced_slots_typed_witness :
  let ops := [OpLog (Some (weapon_card 1)); OpLog (Some (weapon_card 2));
              OpLog (Some (weapon_card 3)); OpLog (Some (weapon_card 4));
              OpLog (Some (weapon_card 7)); OpLog (Some (weapon_card 5))] in
  let lb := run ops (LogBook.init static_deck) in
  slots_typed static_deck lb
  /\ (forall k c, c ∈ LogBook.get k false lb -> c ∈ static_deck /\ type c = k).
Proof.
  apply (deduced_slots_typed static_deck). reflexivity.
Defined.

(** ** Known and unknown rooms *)

Lemma unknown_rooms_iff (self : Player.t) (r : Room) :
  VRoom r ∈ Player._get_unknown_rooms self
  <-> card_of_room r ∈ LogBook.get ROOM false (Player.log_book self).
Proof.
  unfold Player._get_unknown_rooms. rewrite list_elem_of_fmap. split.
  - intros [[v t] [Hv Hin]]. simpl in Hv. subst v.
    pose proof Hin as [_ Ht]%elem_of_get. simpl in Ht. by subst t.
  - intros Hin. by exists (card_of_room r).
Qed.

(** X12: for a player whose per-card map holds each key once, a room
    that [is_room_known] reports as known is not among the rooms
    [_get_unknown_rooms] returns, and a room it reports as not known is
    among them; after [log] of the room's card, [is_room_known] returns
    [True] for the room. *)
Theorem room_known_iff_not_unknown (self : Player.t) (r : Room)
    (Hwf : dict_wf (LogBook.log_book (Player.log_book self))) :
  (LogBook.is_room_known r (Player.log_book self) = Ok true ->
   VRoom r ∉ Player._get_unknown_rooms self)
  /\ (LogBook.is_room_known r (Player.log_book self) = Ok false ->
      VRoom r ∈ Player._get_unknown_rooms self)
  /\ LogBook.is_room_known r
       (exec (LogBook.log (Some (card_of_room r))) (Player.log_book self)) = Ok true.
Proof.
  unfold LogBook.is_room_known, dict_getitem. fold (card_of_room r).
  rewrite unknown_rooms_iff, elem_of_get. split_and!.
  - destruct (dict_get _ _) as [[|]|] eqn:Hget; try done. intros _ [Hin _].
    apply (dict_wf_entry_get _ _ _ Hwf) in Hin. congruence.
  - destruct (dict_get _ _) as [[|]|] eqn:Hget; try done. intros _.
    split; [|done]. by apply dict_get_entry.
  - by rewrite exec_log_log_book, dict_get_set_eq.
Qed.

Lemma room_known_iff_not_unknown_witness :
  let self := Player.mk Player.ComputerPlayerClass None None Hand.init
                (exec (LogBook.log (Some (room_card 2))) (LogBook.init static_deck))
                None None in
  (LogBook.is_room_known (RoomOf 2) (Player.log_book self) = Ok true ->
   VRoom (RoomOf 2) ∉ Player._get_unknown_rooms self)
  /\ (LogBook.is_room_known (RoomOf 2) (Player.log_book self) = Ok false ->
      VRoom (RoomOf 2) ∈ Player._get_unknown_rooms self)
  /\ LogBook.is_room_known (RoomOf 2)
       (exec (LogBook.log (Some (card_of_room (RoomOf 2)))) (Player.log_book self)) = Ok true.
Proof.
  apply (room_known_iff_not_unknown
           (Player.mk Player.ComputerPlayerClass None None Hand.init
              (exec (LogBook.log (Some (room_card 2))) (LogBook.init static_deck))
              None None)).
  unfold dict_wf. apply (bool_decide_unpack _). vm_compute. exact I.
Defined.
(** ** Choosing the cards of a guess *)

Lemma random_choice_spec {A} (rnd : nat) (l : list A) :
  (random_choice rnd l = Raise IndexError <-> l = [])
  /\ (forall x, random_choice rnd l = Ok x -> x ∈ l)
  /\ (forall e, random_choice rnd l = Raise e -> e = IndexError).
Proof.
  unfold random_choice. destruct l as [|a l].
  - simpl. split_and!; [done|done|by intros e [= <-]].
  - assert (rnd `mod` length (a :: l) < length (a :: l))%nat as Hlt
      by (apply Nat.mod_upper_bound; simpl; lia).
    apply lookup_lt_is_Some in Hlt as [x Hx]. rewrite Hx. split_and!; try done.
    intros y [= <-]. by apply list_elem_of_lookup_2 in Hx.
Qed.

(** X13: a ComputerPlayer's [decide_weapon_guess] returns the deduced
    weapon when the weapon slot is set; otherwise it returns a card that
    [get(WEAPON, False)] reports, and raises IndexError exactly when
    there is none; it raises nothing else.  [decide_character_guess]
    does the same with the character slot and [get(CHARACTER, False)]. *)
Theorem decide_guess_spec (rnd : nat) (self : Player.t)
    (Hcls : Player.cls self = Player.ComputerPlayerClass) :
  let lb := Player.log_book self in
  (forall c, Solution.weapon (LogBook.solution lb) = Some c ->
     Player.decide_weapon_guess rnd self = Ok c)
  /\ (Solution.weapon (LogBook.solution lb) = None ->
      (Player.decide_weapon_guess rnd self = Raise IndexError <-> LogBook.get WEAPON false lb = [])
      /\ (forall c, Player.decide_weapon_guess rnd self = Ok c ->
            c ∈ LogBook.get WEAPON false lb))
  /\ (forall e, Player.decide_weapon_guess rnd self = Raise e -> e = IndexError)
  /\ (forall c, Solution.character (LogBook.solution lb) = Some c ->
        Player.decide_character_guess rnd self = Ok c)
  /\ (Solution.character (LogBook.solution lb) = None ->
      (Player.decide_character_guess rnd self = Raise IndexError
         <-> LogBook.get CHARACTER false lb = [])
      /\ (forall c, Player.decide_character_guess rnd self = Ok c ->
            c ∈ LogBook.get CHARACTER false lb))
  /\ (forall e, Player.decide_character_guess rnd self = Raise e -> e = IndexError).
Proof.
  cbv zeta. unfold Player.decide_weapon_guess, Player.decide_character_guess.
  rewrite Hcls. unfold Player.ComputerPlayer_decide_weapon_guess,
    Player.ComputerPlayer_decide_character_guess.
  destruct (random_choice_spec rnd (LogBook.get WEAPON false (Player.log_book self)))
    as (W1 & W2 & W3).
  destruct (random_choice_spec rnd (LogBook.get CHARACTER false (Player.log_book self)))
    as (C1 & C2 & C3).
  split_and!.
  - by intros c ->.
  - by intros ->.
  - destruct (Solution.weapon _); [done|apply W3].
  - by intros c ->.
  - by intros ->.
  - destruct (Solution.character _); [done|apply C3].
Qed.

Lemma decide_guess_spec_witness :
  let self := Player.mk Player.ComputerPlayerClass None None Hand.init
                (exec (LogBook.log (Some (weapon_card 2))) (LogBook.init static_deck))
                (Some (RoomOf 1)) None in
  let rnd := 7%nat in
  let lb := Player.log_book self in
  (forall c, Solution.weapon (LogBook.solution lb) = Some c ->
     Player.decide_weapon_guess rnd self = Ok c)
  /\ (Solution.weapon (LogBook.solution lb) = None ->
      (Player.decide_weapon_guess rnd self = Raise IndexError <-> LogBook.get WEAPON false lb = [])
      /\ (forall c, Player.decide_weapon_guess rnd self = Ok c ->
            c ∈ LogBook.get WEAPON false lb))
  /\ (forall e, Player.decide_weapon_guess rnd self = Raise e -> e = IndexError)
  /\ (forall c, Solution.character (LogBook.solution lb) = Some c ->
        Player.decide_character_guess rnd self = Ok c)
  /\ (Solution.character (LogBook.solution lb) = None ->
      (Player.decide_character_guess rnd self = Raise IndexError
         <-> LogBook.get CHARACTER false lb = [])
      /\ (forall c, Player.decide_character_guess rnd self = Ok c ->
            c ∈ LogBook.get CHARACTER false lb))
  /\ (forall e, Player.decide_character_guess rnd self = Raise e -> e = IndexError).
Proof.
  apply (decide_guess_spec 7%nat
           (Player.mk Player.ComputerPlayerClass None None Hand.init
              (exec (LogBook.log (Some (weapon_card 2))) (LogBook.init static_deck))
              (Some (RoomOf 1)) None)).
  reflexivity.
Defined.

(** ** Receiving cards *)

Lemma has_card_add c c' h :
  Hand.has_card (Hand.add c h) (Some c') = Ok true ->
  c' = c \/ Hand.has_card h (Some c') = Ok true.
Proof.
  destruct (decide (c' = c)) as [->|Hne]; [by left|]. right. revert H.
  unfold Hand.has_card, Hand.add.
  destruct (type c), (type c'); simpl; try done; intros [= Hb]; f_equal;
    apply bool_decide_eq_true; apply bool_decide_eq_true in Hb;
    apply elem_of_app in Hb as [?|Hb]; try done; by apply list_elem_of_singleton in Hb.
Qed.

Lemma has_card_add_same c h : Hand.has_card (Hand.add c h) (Some c) = Ok true.
Proof.
  unfold Hand.has_card, Hand.add. destruct (type c) eqn:Ht; simpl; f_equal;
    apply bool_decide_eq_true; apply elem_of_app; right; by apply list_elem_of_singleton.
Qed.

Lemma give_card_eq c self :
  Player.give_card c self =
  let self1 := Player.set_hand (Hand.add c (Player.hand self)) self in
  (eval (LogBook.log (Some c)) (Player.log_book self),
   Player.set_log_book (exec (LogBook.log (Some c)) (Player.log_book self)) self1).
Proof.
  unfold Player.give_card, mbind, M_bind, modify, Player.on_log_book, eval, exec.
  cbn [Player.log_book Player.set_hand].
  by destruct (LogBook.log (Some c) (Player.log_book self)) as [[[]|e] lb].
Qed.

(** Reads the fields of a player record that a setter has built. *)
Ltac player_fields :=
  cbv zeta;
  cbn [fst snd Player.cls Player.hand Player.log_book Player.room Player.position
       Player.character Player.remaining_path Player.set_hand Player.set_log_book
       Player.set_room Player.set_position Player.set_remaining_path].

Lemma give_card_logged c self : hand_logged self -> hand_logged (exec (Player.give_card c) self).
Proof.
  intros Hl c'. unfold exec at 1 2. rewrite give_card_eq. player_fields. intros Hc'.
  unfold eliminated. rewrite exec_log_log_book.
  apply has_card_add in Hc' as [->|Hc'].
  - apply dict_get_set_eq.
  - destruct (decide (c = c')) as [->|Hne]; [apply dict_get_set_eq|].
    rewrite dict_get_set_ne by done. by apply Hl.
Qed.

(** X14: after [give_card(c)], whether [log] returned or raised, the
    hand holds [c] and the player's LogBook marks [c] eliminated; the
    cards held before are still held; the room, the position and the
    character are as before; and if every card of the hand was marked
    eliminated before the call, that is so after it.  A player who was
    reset and then given cards holds those cards, in the order given,
    each marked eliminated. *)
Theorem give_card_spec (c : Card) (self : Player.t) (deck cs : list Card) :
  let self' := exec (Player.give_card c) self in
  Hand.has_card (Player.hand self') (Some c) = Ok true
  /\ eliminated (Player.log_book self') c
  /\ (forall c', Hand.has_card (Player.hand self) (Some c') = Ok true ->
        Hand.has_card (Player.hand self') (Some c') = Ok true)
  /\ (Player.room self', Player.position self', Player.character self')
     = (Player.room self, Player.position self, Player.character self)
  /\ (hand_logged self -> hand_logged self')
  /\ (let given := give_cards cs (Player.reset deck self) in
      Player.hand given = Hand.of_cards cs /\ hand_logged given).
Proof.
  cbv zeta.
  assert (Player.hand (give_cards cs (Player.reset deck self)) = Hand.of_cards cs
          /\ hand_logged (give_cards cs (Player.reset deck self))) as Hgiven.
  { unfold give_cards, Hand.of_cards.
    assert (forall s, hand_logged s ->
      Player.hand (foldl (fun s c => exec (Player.give_card c) s) s cs)
      = foldl (fun h c => Hand.add c h) (Player.hand s) cs
      /\ hand_logged (foldl (fun s c => exec (Player.give_card c) s) s cs)) as Hgen.
    { induction cs as [|c0 cs IH]; intros s Hs; [done|]. simpl.
      destruct (IH (exec (Player.give_card c0) s)) as [Hh Hl]; [by apply give_card_logged|].
      split; [|done]. rewrite Hh. unfold exec. by rewrite give_card_eq. }
    apply Hgen. intros c'. simpl. unfold Hand.has_card. simpl.
    destruct (type c'); intros [= Hb]; apply bool_decide_eq_true in Hb;
      by apply elem_of_nil in Hb. }
  split_and!; [| | | |apply give_card_logged|apply Hgiven|apply Hgiven];
    unfold exec; rewrite give_card_eq; player_fields.
  - apply has_card_add_same.
  - unfold eliminated. rewrite exec_log_log_book. apply dict_get_set_eq.
  - intros c' Hc'. destruct (decide (c' = c)) as [->|Hne]; [apply has_card_add_same|].
    revert Hc'. unfold Hand.has_card, Hand.add.
    destruct (type c), (type c'); simpl; try done; intros [= Hb]; f_equal;
      apply bool_decide_eq_true; apply bool_decide_eq_true in Hb;
      apply elem_of_app; by left.
  - done.
Qed.

(** X15: for a player whose per-card map holds each key once and who
    has logged every card of the hand, a weapon that
    [decide_weapon_guess] picks while the weapon slot is unset, and a
    character that [decide_character_guess] picks while the character
    slot is unset, is not a card of the player's own hand. *)
Theorem never_guess_held_card (rnd : nat) (self : Player.t) (c : Card)
    (Hwf : dict_wf (LogBook.log_book (Player.log_book self)))
    (Hlogged : hand_logged self) :
  (Solution.weapon (LogBook.solution (Player.log_book self)) = None ->
   Player.decide_weapon_guess rnd self = Ok c ->
   Hand.has_card (Player.hand self) (Some c) = Ok false)
  /\ (Solution.character (LogBook.solution (Player.log_book self)) = None ->
      Player.decide_character_guess rnd self = Ok c ->
      Hand.has_card (Player.hand self) (Some c) = Ok false).
Proof.
  assert (forall k, c ∈ LogBook.get k false (Player.log_book self) ->
            Hand.has_card (Player.hand self) (Some c) = Ok false) as Hnot.
  { intros k [Hin _]%elem_of_get. apply (dict_wf_entry_get _ _ _ Hwf) in Hin.
    destruct (Hand.has_card (Player.hand self) (Some c)) as [[|]|e] eqn:Hh; [|done|].
    - apply Hlogged in Hh. unfold eliminated in Hh. congruence.
    - revert Hh. unfold Hand.has_card. by destruct (type c). }
  unfold Player.decide_weapon_guess, Player.decide_character_guess.
  destruct (Player.cls self); [done|].
  unfold Player.ComputerPlayer_decide_weapon_guess, Player.ComputerPlayer_decide_character_guess.
  split; intros -> Hc; apply random_choice_spec in Hc; eauto.
Qed.

Lemma never_guess_held_card_witness :
  let self := give_cards [weapon_card 1; weapon_card 2; character_card 3; room_card 4]
                (Player.reset static_deck
                   (Player.mk Player.ComputerPlayerClass None None Hand.init
                      (LogBook.init []) None None)) in
  (Solution.weapon (LogBook.solution (Player.log_book self)) = None ->
   Player.decide_weapon_guess 0 self = Ok (weapon_card 3) ->
   Hand.has_card (Player.hand self) (Some (weapon_card 3)) = Ok false)
  /\ (Solution.character (LogBook.solution (Player.log_book self)) = None ->
      Player.decide_character_guess 0 self = Ok (weapon_card 3) ->
      Hand.has_card (Player.hand self) (Some (weapon_card 3)) = Ok false).
Proof.
  apply (never_guess_held_card 0
           (give_cards [weapon_card 1; weapon_card 2; character_card 3; room_card 4]
              (Player.reset static_deck
                 (Player.mk Player.ComputerPlayerClass None None Hand.init
                    (LogBook.init []) None None)))).
  - unfold dict_wf. apply (bool_decide_unpack _). vm_compute. exact I.
  - intros c. destruct (decide (c ∈ [weapon_card 1; weapon_card 2; character_card 3; room_card 4]))
      as [Hin|Hin].
    + repeat (apply elem_of_cons in Hin as [->|Hin]; [vm_compute; reflexivity|]).
      by apply elem_of_nil in Hin.
    + intros Hh. exfalso. apply Hin.
      change (Player.hand _) with
        (Hand.of_cards [weapon_card 1; weapon_card 2; character_card 3; room_card 4]) in Hh.
      rewrite has_card_of_cards in Hh. injection Hh as Hh. by apply bool_decide_eq_true in Hh.
Defined.
(** ** Recording the outcome of a guess *)

Lemma on_log_book_log_None self :
  Player.on_log_book (LogBook.log None) self = (Ok tt, self).
Proof. unfold Player.on_log_book. simpl. by destruct self. Qed.

Lemma log_None_then (m : M Player.t unit) self :
  (Player.on_log_book (LogBook.log None);; m) self = m self.
Proof. unfold mbind, M_bind. by rewrite on_log_book_log_None. Qed.

Lemma then_log_None (m : M Player.t unit) self :
  (m;; Player.on_log_book (LogBook.log None)) self = m self.
Proof.
  unfold mbind, M_bind. destruct (m self) as [[[]|e] s]; [|done].
  apply on_log_book_log_None.
Qed.

(** X16: when the match a guess was refuted with shows exactly one
    card [c], [_log_guess_match] does what [log(c)] does on the
    player's LogBook, whichever slot holds [c] and whatever the guess
    and the skipped count: [c] is marked eliminated, no other card's
    entry changes, and the hand, the room and the position are as
    before. *)
Theorem log_guess_match_refuted (guess m : Solution.t) (skipped_count : Z)
    (self : Player.t) (k : CardType) (c : Card)
    (Hone : populated m = 1%nat)
    (Hc : Solution.slot k m = Some c) :
  let self' := exec (Player._log_guess_match guess (Some m) skipped_count) self in
  Player._log_guess_match guess (Some m) skipped_count self
  = Player.on_log_book (LogBook.log (Some c)) self
  /\ eliminated (Player.log_book self') c
  /\ (forall c', c' <> c ->
        dict_get c' (LogBook.log_book (Player.log_book self'))
        = dict_get c' (LogBook.log_book (Player.log_book self)))
  /\ (Player.hand self', Player.room self', Player.position self')
     = (Player.hand self, Player.room self, Player.position self).
Proof.
  cbv zeta.
  assert (Player._log_guess_match guess (Some m) skipped_count self
          = Player.on_log_book (LogBook.log (Some c)) self) as Heq.
  { unfold Player._log_guess_match.
    destruct m as [[w|] [ch|] [r|]]; simpl in Hone; try discriminate;
      destruct k; simpl in Hc; try discriminate; injection Hc as ->;
      cbn [Solution.character Solution.weapon Solution.room];
      rewrite ?log_None_then, ?then_log_None; done. }
  unfold exec. rewrite Heq. unfold Player.on_log_book.
  destruct (LogBook.log (Some c) (Player.log_book self)) as [res lb] eqn:Hlog.
  assert (lb = exec (LogBook.log (Some c)) (Player.log_book self)) as ->
    by (unfold exec; by rewrite Hlog).
  player_fields. split_and!; try done.
  - unfold eliminated. rewrite exec_log_log_book. apply dict_get_set_eq.
  - intros c' Hne. rewrite exec_log_log_book. by apply dict_get_set_ne.
Qed.

Lemma log_guess_match_refuted_witness :
  let guess := Solution.mk (Some (weapon_card 2)) (Some (character_card 3))
                 (Some (room_card 4)) in
  let m := Solution.mk None None (Some (room_card 4)) in
  let self := Player.mk Player.ComputerPlayerClass None None Hand.init
                (LogBook.init static_deck) (Some (RoomOf 4)) None in
  let self' := exec (Player._log_guess_match guess (Some m) 2) self in
  Player._log_guess_match guess (Some m) 2 self
  = Player.on_log_book (LogBook.log (Some (room_card 4))) self
  /\ eliminated (Player.log_book self') (room_card 4)
  /\ (forall c', c' <> room_card 4 ->
        dict_get c' (LogBook.log_book (Player.log_book self'))
        = dict_get c' (LogBook.log_book (Player.log_book self)))
  /\ (Player.hand self', Player.room self', Player.position self')
     = (Player.hand self, Player.room self, Player.position self).
Proof.
  apply (log_guess_match_refuted _ (Solution.mk None None (Some (room_card 4))) 2 _ ROOM).
  - reflexivity.
  - reflexivity.
Defined.

Lemma found_solution_run lb w c r :
  LogBook.solution lb = Solution.mk None None None ->
  candidate lb w -> candidate lb c -> candidate lb r ->
  1 <= enum_value (value c) <= 6 ->
  exists a,
    LogBook.found_solution (Solution.mk (Some w) (Some c) (Some r)) lb
    = (Ok tt, LogBook.mk (LogBook.log_book lb) a a a (Solution.mk (Some w) (Some c) (Some r))).
Proof.
  intros Hunset Hw Hc Hr Hidx. set (cand := Solution.mk (Some w) (Some c) (Some r)).
  assert (LogBook.character_index cand = Ok (enum_value (value c) - 1)) as Hi by done.
  assert (0 <= enum_value (value c) - 1 < 6) as Hrange by lia.
  eexists. unfold LogBook.found_solution, mbind, M_bind.
  rewrite found_solution_character_eq.
  rewrite (adopt_fire CHARACTER cand lb c _) by (done || by rewrite Hunset).
  rewrite found_solution_weapon_eq.
  rewrite (adopt_fire WEAPON cand _ w _) by (done || by rewrite Hunset).
  rewrite found_solution_room_eq.
  rewrite (adopt_fire ROOM cand _ r _) by (done || by rewrite Hunset).
  simpl. by rewrite Hunset.
Qed.

(** X17: when nobody refutes a guess ([match] is [None]) and the
    player's LogBook has no slot set and marks none of the three cards
    of the guess eliminated, [_log_guess_match] returns, the player's
    Solution is the guess, and the next [next_turn_action] is
    ACCUSATION, wherever the player is. *)
Theorem unrefuted_guess_then_accuse (self : Player.t) (w c r : Card) (skipped_count : Z)
    (Hunset : LogBook.solution (Player.log_book self) = Solution.mk None None None)
    (Hw : candidate (Player.log_book self) w)
    (Hc : candidate (Player.log_book self) c)
    (Hr : candidate (Player.log_book self) r)
    (Hidx : 1 <= enum_value (value c) <= 6) :
  let guess := Solution.mk (Some w) (Some c) (Some r) in
  let self' := exec (Player._log_guess_match guess None skipped_count) self in
  eval (Player._log_guess_match guess None skipped_count) self = Ok tt
  /\ LogBook.solution (Player.log_book self') = guess
  /\ Player.next_turn_action self' = Ok ACCUSATION.
Proof.
  cbv zeta. unfold eval, exec, Player._log_guess_match, Player.on_log_book.
  destruct (found_solution_run _ w c r Hunset Hw Hc Hr Hidx) as [a ->].
  player_fields. split_and!; try done.
Qed.

Lemma unrefuted_guess_then_accuse_witness :
  let self := Player.mk Player.ComputerPlayerClass None None Hand.init
                (LogBook.init static_deck) (Some (RoomOf 4)) None in
  let guess := Solution.mk (Some (weapon_card 2)) (Some (character_card 3))
                 (Some (room_card 4)) in
  let self' := exec (Player._log_guess_match guess None 3) self in
  eval (Player._log_guess_match guess None 3) self = Ok tt
  /\ LogBook.solution (Player.log_book self') = guess
  /\ Player.next_turn_action self' = Ok ACCUSATION.
Proof.
  apply (unrefuted_guess_then_accuse
           (Player.mk Player.ComputerPlayerClass None None Hand.init
              (LogBook.init static_deck) (Some (RoomOf 4)) None)
           (weapon_card 2) (character_card 3) (room_card 4) 3).
  - reflexivity.
  - vm_compute. reflexivity.
  - vm_compute. reflexivity.
  - vm_compute. reflexivity.
  - simpl. lia.
Defined.
(** ** A move: use_roll, then move_path *)

Lemma slice_to_length {A} (l : list A) (n : Z) :
  0 <= n -> Z.of_nat (length (slice_to l n)) <= n.
Proof.
  intros Hn. unfold slice_to. rewrite decide_True by done. rewrite length_take. lia.
Qed.

(** X18: when the constructor [RoomPath(room, path)] gives a path a
    distance of at most its number of steps, the path a ComputerPlayer's
    [use_roll] returns for a roll of at least 0 has a distance within
    the roll, so [move_path] with the same roll, as [take_turn] calls
    it, never raises "Path is longer than roll" on it. *)
Theorem use_roll_within_roll (P : Paths) (rnd : nat) (roll : Z) (self self' : Player.t)
    (p : RoomPath.t)
    (Hcls : Player.cls self = Player.ComputerPlayerClass)
    (Hroll : 0 <= roll)
    (Hdist : forall room steps, path_distance P room steps <= Z.of_nat (length steps))
    (Huse : Player.use_roll P rnd roll self = (Ok p, self')) :
  RoomPath.distance p <= roll
  /\ Player.move_path roll p self' = Player.move_steps (RoomPath.path p) self'.
Proof.
  assert (RoomPath.distance p <= roll) as Hle.
  { revert Huse. unfold Player.use_roll. rewrite Hcls. unfold Player.ComputerPlayer_use_roll.
    assert (forall room l, RoomPath.distance (RoomPath_new P room (slice_to l roll)) <= roll)
      as Hnew.
    { intros room l. simpl. etrans; [apply Hdist|]. by apply slice_to_length. }
    case_bool_decide.
    - unfold Player._use_remaining_roll. destruct (Player.remaining_path self); [|done].
      case_decide; intros [= <- _]; [apply Hnew|lia].
    - destruct (_ ≫= random_choice rnd) as [path|]; [|done].
      case_decide; intros [= <- _]; [apply Hnew|lia]. }
  split; [done|]. unfold Player.move_path. by rewrite decide_False by lia.
Qed.

Lemma use_roll_within_roll_witness :
  let P := mkPaths (fun _ path => Z.of_nat (length path))
             (fun _ _ _ => []) (fun _ _ => []) in
  let rp := RoomPath.mk (RoomOf 4)
              [Space 7 8; Space 7 9; Space 7 10; Space 7 11; RoomPosition (RoomOf 4)] 5 in
  let self := Player.mk Player.ComputerPlayerClass (Some (CharacterOf 1)) (Some (7, 7))
                Hand.init (LogBook.init static_deck) None (Some rp) in
  let p := RoomPath.mk (RoomOf 4) [Space 7 8; Space 7 9; Space 7 10] 3 in
  let self' := Player.set_remaining_path
                 (Some (RoomPath.mk (RoomOf 4) [Space 7 11; RoomPosition (RoomOf 4)] 2)) self in
  RoomPath.distance p <= 3
  /\ Player.move_path 3 p self' = Player.move_steps (RoomPath.path p) self'.
Proof.
  apply (use_roll_within_roll
           (mkPaths (fun _ path => Z.of_nat (length path)) (fun _ _ _ => []) (fun _ _ => []))
           0%nat 3
           (Player.mk Player.ComputerPlayerClass (Some (CharacterOf 1)) (Some (7, 7))
              Hand.init (LogBook.init static_deck) None
              (Some (RoomPath.mk (RoomOf 4)
                 [Space 7 8; Space 7 9; Space 7 10; Space 7 11; RoomPosition (RoomOf 4)] 5)))).
  - reflexivity.
  - lia.
  - intros room steps. simpl. lia.
  - reflexivity.
Defined.

(** ** What move_path keeps and where it leaves the player *)

Lemma move_step_frame p s :
  let s' := exec (Player.move_step p) s in
  Player.cls s' = Player.cls s /\ Player.hand s' = Player.hand s
  /\ Player.log_book s' = Player.log_book s /\ Player.character s' = Player.character s
  /\ (located s -> located s')
  /\ (recognized p -> located s').
Proof.
  cbv zeta. unfold located, recognized.
  destruct p as [row col|room|]; unfold exec; simpl.
  - split_and!; try done; intros _; by left.
  - unfold Player.enter_room. destruct (Player.cls s) eqn:Hcls; simpl;
      split_and!; try done; intros _; by right.
  - split_and!; done.
Qed.

Lemma move_steps_frame l s :
  let s' := exec (Player.move_steps l) s in
  Player.cls s' = Player.cls s /\ Player.hand s' = Player.hand s
  /\ Player.log_book s' = Player.log_book s /\ Player.character s' = Player.character s
  /\ (located s -> located s').
Proof.
  cbv zeta. revert s. induction l as [|p l IH]; intros s; [done|].
  destruct (move_step_frame p s) as (F1 & F2 & F3 & F4 & F5 & _).
  unfold exec in *. simpl. unfold mbind, M_bind.
  destruct (Player.move_step p s) as [[[]|e] s1]; simpl in *; [|done].
  destruct (IH s1) as (G1 & G2 & G3 & G4 & G5).
  rewrite G1, G2, G3, G4, F1, F2, F3, F4. split_and!; try done. auto.
Qed.

(** X19: [move_path] never changes the class, the hand, the LogBook
    or the character of the player, whether it returns or raises.  A
    player who is at a coordinate or in a room, and not both, is so
    after the call; and so is any player after a call within the roll
    on a path whose first step is a free space or a room entry. *)
Theorem move_path_frame (roll : Z) (room_path : RoomPath.t) (self : Player.t) :
  let self' := exec (Player.move_path roll room_path) self in
  Player.cls self' = Player.cls self /\ Player.hand self' = Player.hand self
  /\ Player.log_book self' = Player.log_book self
  /\ Player.character self' = Player.character self
  /\ (located self -> located self')
  /\ (forall p l, RoomPath.distance room_path <= roll ->
        RoomPath.path room_path = p :: l -> recognized p -> located self').
Proof.
  cbv zeta. unfold Player.move_path. case_decide as Hlt.
  { unfold exec. simpl. split_and!; try done. intros; lia. }
  destruct (move_steps_frame (RoomPath.path room_path) self) as (F1 & F2 & F3 & F4 & F5).
  split_and!; try done.
  intros p l _ Hpath Hp. rewrite Hpath. unfold exec. simpl. unfold mbind, M_bind.
  destruct (move_step_frame p self) as (_ & _ & _ & _ & _ & Hloc).
  specialize (Hloc Hp). unfold exec in Hloc.
  destruct (Player.move_step p self) as [[[]|e] s1]; simpl in *; [|done].
  by apply move_steps_frame.
Qed.

(** X20: a [move_path] within the roll along a path of free spaces
    and room entries that ends with the entry of a room leaves the
    player in that room with no coordinate; for a ComputerPlayer the
    remainder is [None] afterwards. *)
Theorem move_path_into_room (roll : Z) (room_path : RoomPath.t) (self : Player.t)
    (steps : list Step) (room : Room)
    (Hroll : RoomPath.distance room_path <= roll)
    (Hpath : RoomPath.path room_path = steps ++ [RoomPosition room])
    (Hsteps : Forall recognized steps) :
  let self' := exec (Player.move_path roll room_path) self in
  eval (Player.move_path roll room_path) self = Ok tt
  /\ Player.room self' = Some room
  /\ Player.position self' = None
  /\ (Player.cls self = Player.ComputerPlayerClass -> Player.remaining_path self' = None).
Proof.
  cbv zeta. unfold eval, exec, Player.move_path. rewrite decide_False by lia.
  rewrite Hpath, move_steps_app by done.
  set (s := foldl _ self steps).
  assert (Player.cls s = Player.cls self) as Hcls.
  { subst s. clear. revert self. induction steps as [|p l IH]; intros self; [done|].
    simpl. rewrite IH. apply move_step_frame. }
  simpl. unfold mbind, M_bind, modify. simpl. unfold Player.enter_room. rewrite Hcls.
  destruct (Player.cls self); simpl; split_and!; done.
Qed.

Lemma move_path_into_room_witness :
  let rp := RoomPath.mk (RoomOf 4) [Space 7 11; RoomPosition (RoomOf 4)] 2 in
  let self := Player.mk Player.ComputerPlayerClass (Some (CharacterOf 1)) (Some (7, 10))
                Hand.init (LogBook.init static_deck) None (Some rp) in
  let self' := exec (Player.move_path 2 rp) self in
  eval (Player.move_path 2 rp) self = Ok tt
  /\ Player.room self' = Some (RoomOf 4)
  /\ Player.position self' = None
  /\ (Player.cls self = Player.ComputerPlayerClass -> Player.remaining_path self' = None).
Proof.
  apply (move_path_into_room 2
           (RoomPath.mk (RoomOf 4) [Space 7 11; RoomPosition (RoomOf 4)] 2)
           _ [Space 7 11] (RoomOf 4)).
  - simpl. lia.
  - reflexivity.
  - repeat constructor. unfold recognized. discriminate.
Defined.
(** ** The ComputerPlayer's choice between moving and guessing *)

(** X21: a ComputerPlayer that has no complete Solution and is in a
    room guesses when the room's card is not eliminated; when the card
    is eliminated it moves while the room slot is unset, and once the
    room slot is set it guesses exactly when its hand holds the room's
    card; when the room's card is no key of the per-card map the
    decision raises KeyError. *)
Theorem computer_turn_in_room (self : Player.t) (r : Room)
    (Hcls : Player.cls self = Player.ComputerPlayerClass)
    (Hroom : Player.room self = Some r)
    (Hno : LogBook.has_solution (Player.log_book self) = false) :
  let lb := Player.log_book self in
  (candidate lb (card_of_room r) -> Player.next_turn_action self = Ok GUESS)
  /\ (eliminated lb (card_of_room r) -> Solution.room (LogBook.solution lb) = None ->
      Player.next_turn_action self = Ok MOVE)
  /\ (eliminated lb (card_of_room r) -> Solution.room (LogBook.solution lb) <> None ->
      Player.next_turn_action self
      = Ok (if bool_decide (card_of_room r ∈ Hand.rooms (Player.hand self))
            then GUESS else MOVE))
  /\ (card_of_room r ∉ keys lb -> Player.next_turn_action self = Raise KeyError).
Proof.
  cbv zeta. unfold candidate, eliminated, keys.
  unfold Player.next_turn_action. rewrite Hno, Hroom.
  rewrite bool_decide_false by done.
  unfold Player.should_guess_current_room. rewrite Hcls.
  unfold Player.ComputerPlayer_should_guess_current_room. rewrite Hroom.
  unfold LogBook.is_room_known, dict_getitem. fold (card_of_room r).
  split_and!.
  - by intros ->.
  - by intros -> ->.
  - intros -> Hslot. cbn [mbind Result_bind negb]. rewrite bool_decide_true by done.
    unfold Hand.has_card. cbn [type card_of_room]. by case_bool_decide.
  - intros Hkey. destruct (dict_get _ _) as [b|] eqn:Hget; [|done].
    exfalso. apply Hkey. apply dict_get_entry in Hget. apply list_elem_of_fmap.
    by exists (card_of_room r, b).
Qed.

Lemma computer_turn_in_room_witness :
  let self := Player.mk Player.ComputerPlayerClass None None
                (Hand.of_cards [room_card 4])
                (exec (LogBook.log (Some (room_card 4))) (LogBook.init static_deck))
                (Some (RoomOf 4)) None in
  let r := RoomOf 4 in
  let lb := Player.log_book self in
  (candidate lb (card_of_room r) -> Player.next_turn_action self = Ok GUESS)
  /\ (eliminated lb (card_of_room r) -> Solution.room (LogBook.solution lb) = None ->
      Player.next_turn_action self = Ok MOVE)
  /\ (eliminated lb (card_of_room r) -> Solution.room (LogBook.solution lb) <> None ->
      Player.next_turn_action self
      = Ok (if bool_decide (card_of_room r ∈ Hand.rooms (Player.hand self))
            then GUESS else MOVE))
  /\ (card_of_room r ∉ keys lb -> Player.next_turn_action self = Raise KeyError).
Proof.
  apply (computer_turn_in_room
           (Player.mk Player.ComputerPlayerClass None None
              (Hand.of_cards [room_card 4])
              (exec (LogBook.log (Some (room_card 4))) (LogBook.init static_deck))
              (Some (RoomOf 4)) None)
           (RoomOf 4)).
  - reflexivity.
  - reflexivity.
  - vm_compute. reflexivity.
Defined.

(** ** reset *)

(** X22: right after [reset], whatever the player was before, the
    next action is MOVE, [show_card] has nothing to show for any
    complete guess, and a ComputerPlayer that carries no remainder
    cannot move yet: [use_roll] raises TypeError, the player having no
    position, and changes nothing. *)
Theorem reset_spec (deck : list Card) (self : Player.t) (P : Paths) (rnd : nat) (roll : Z)
    (w c r : Card) :
  let self' := Player.reset deck self in
  Player.next_turn_action self' = Ok MOVE
  /\ Player.show_card self' (Solution.mk (Some w) (Some c) (Some r)) = Ok None
  /\ (Player.cls self = Player.ComputerPlayerClass -> Player.remaining_path self = None ->
      Player.use_roll P rnd roll self' = (Raise TypeError, self')).
Proof.
  cbv zeta. split_and!.
  - done.
  - unfold Player.show_card. simpl.
    change Hand.init with (Hand.of_cards []). rewrite compare_to_hand_complete.
    unfold held. rewrite !bool_decide_false by (by intros ?%elem_of_nil). done.
  - intros Hcls Hrem. unfold Player.use_roll, Player.reset. simpl. rewrite Hcls.
    unfold Player.ComputerPlayer_use_roll. simpl. rewrite Hrem.
    by rewrite bool_decide_false by (by intros []).
Qed.

(** X23: [reset] does not assign [remaining_path]: a ComputerPlayer
    that is reset while it carries a remainder still carries it, and
    its next [use_roll], for a roll of at least 0, continues that
    remainder instead of asking the board for a path. *)
Theorem reset_keeps_remainder (deck : list Card) (self : Player.t) (P : Paths)
    (rnd : nat) (roll : Z) (rp : RoomPath.t)
    (Hcls : Player.cls self = Player.ComputerPlayerClass)
    (Hrem : Player.remaining_path self = Some rp)
    (Hroll : 0 <= roll) :
  let self' := Player.reset deck self in
  Player.remaining_path self' = Some rp
  /\ Player.use_roll P rnd roll self' =
     if decide (RoomPath.distance rp > roll) then
       (Ok (RoomPath_new P (RoomPath.room rp) (take (Z.to_nat roll) (RoomPath.path rp))),
        Player.set_remaining_path
          (Some (RoomPath_new P (RoomPath.room rp) (drop (Z.to_nat roll) (RoomPath.path rp))))
          self')
     else (Ok rp, Player.set_remaining_path None self').
Proof.
  cbv zeta. split; [done|].
  unfold Player.use_roll, Player.reset. simpl. rewrite Hcls.
  unfold Player.ComputerPlayer_use_roll. simpl. rewrite Hrem.
  rewrite bool_decide_true by done. unfold Player._use_remaining_roll. simpl.
  case_decide; [|done]. by rewrite slice_to_nonneg, slice_from_nonneg.
Qed.

Lemma reset_keeps_remainder_witness :
  let P := mkPaths (fun _ path => Z.of_nat (length path))
             (fun _ _ _ => []) (fun _ _ => []) in
  let rp := RoomPath.mk (RoomOf 4) [Space 7 11; RoomPosition (RoomOf 4)] 2 in
  let self := Player.mk Player.ComputerPlayerClass (Some (CharacterOf 1)) (Some (7, 10))
                (Hand.of_cards [room_card 4]) (LogBook.init static_deck) None (Some rp) in
  let self' := Player.reset static_deck self in
  Player.remaining_path self' = Some rp
  /\ Player.use_roll P 0 6 self' =
     if decide (RoomPath.distance rp > 6) then
       (Ok (RoomPath_new P (RoomPath.room rp) (take (Z.to_nat 6) (RoomPath.path rp))),
        Player.set_remaining_path
          (Some (RoomPath_new P (RoomPath.room rp) (drop (Z.to_nat 6) (RoomPath.path rp))))
          self')
     else (Ok rp, Player.set_remaining_path None self').
Proof.
  apply (reset_keeps_remainder static_deck
           (Player.mk Player.ComputerPlayerClass (Some (CharacterOf 1)) (Some (7, 10))
              (Hand.of_cards [room_card 4]) (LogBook.init static_deck) None
              (Some (RoomPath.mk (RoomOf 4) [Space 7 11; RoomPosition (RoomOf 4)] 2)))
           (mkPaths (fun _ path => Z.of_nat (length path)) (fun _ _ _ => []) (fun _ _ => []))
           0%nat 6).
  - reflexivity.
  - reflexivity.
  - lia.
Defined.
(** ** Further edge behaviour *)

(** X24: [find_solution] always returns, also when no candidate of
    the category is left; it never touches the per-card map or a
    tracking array; and it changes the slot of its category exactly when
    the Solution is not complete, that slot is unset and exactly one
    card of the category is not eliminated, the slot then holding that
    card. *)
Theorem find_solution_deduces_iff (k : CardType) (lb : LogBook.t) :
  let lb' := exec (LogBook.find_solution k) lb in
  eval (LogBook.find_solution k) lb = Ok tt
  /\ LogBook.log_book lb' = LogBook.log_book lb
  /\ (forall k', array k' lb' = array k' lb)
  /\ (Solution.slot k (LogBook.solution lb') <> Solution.slot k (LogBook.solution lb)
      <-> LogBook.has_solution lb = false
          /\ Solution.slot k (LogBook.solution lb) = None
          /\ exists r, LogBook.get k false lb = [r])
  /\ (forall r, LogBook.has_solution lb = false ->
        Solution.slot k (LogBook.solution lb) = None ->
        LogBook.get k false lb = [r] ->
        Solution.slot k (LogBook.solution lb') = Some r).
Proof.
  cbv zeta. unfold eval, exec. rewrite find_solution_eq. simpl.
  split_and!; [done|apply deduce_log_book|intros; apply deduce_array| |].
  - unfold deduce, LogBook.has_solution.
    destruct (Solution.is_complete _); [by split; [|intros [? _]]|].
    destruct (Solution.slot k (LogBook.solution lb)) eqn:Hk;
      [rewrite Hk; by split; [|intros (_ & ? & _)]|].
    destruct (LogBook.get k false lb) as [|r [|]] eqn:Hg.
    + rewrite Hk. split; [done|]. by intros (_ & _ & ? & ?).
    + simpl. rewrite slot_set_slot. split; [eauto|done].
    + rewrite Hk. split; [done|]. by intros (_ & _ & ? & ?).
  - intros r Hc Hk Hg. unfold deduce. unfold LogBook.has_solution in Hc.
    rewrite Hc, Hk, Hg. simpl. by rewrite slot_set_slot.
Qed.

Lemma exec_log_array_length c k lb :
  length (nd_data (array k (exec (LogBook.log c) lb))) = length (nd_data (array k lb)).
Proof.
  destruct c as [c|]; [|done]. unfold exec. rewrite log_eq.
  destruct (np_setitem _ _ _) as [a|e] eqn:Hset; simpl; [|by rewrite log_state_array].
  apply np_setitem_length in Hset. rewrite log_state_array in Hset.
  destruct (decide (k = type c)) as [->|Hne].
  - by rewrite array_set_array.
  - rewrite <- (log_state_array c k lb). by destruct k, (type c).
Qed.

Lemma eval_log_in_range c lb :
  fits_C_long (enum_value (value c) - 1) -> index_in_range lb c ->
  eval (LogBook.log (Some c)) lb = Ok tt.
Proof.
  unfold eval, index_in_range. rewrite log_eq, log_state_array. unfold np_setitem.
  intros Hfit Hin. repeat case_decide; simpl; try done; lia.
Qed.

(** X25: on the LogBook that [LogBook()] builds over the deck of 6
    weapons, 6 characters and 9 rooms, driven by any operations other
    than [found_solution], the tracking arrays keep 6, 6 and 9 entries
    and [log] of any card of that deck returns. *)
Theorem log_deck_card_returns (ops : list LogBookOp) (c : Card)
    (Hops : existsb is_found_solution ops = false)
    (Hc : c ∈ static_deck) :
  let lb := run ops (LogBook.init static_deck) in
  length (nd_data (LogBook.weapons lb)) = 6%nat
  /\ length (nd_data (LogBook.characters lb)) = 6%nat
  /\ length (nd_data (LogBook.rooms lb)) = 9%nat
  /\ eval (LogBook.log (Some c)) lb = Ok tt.
Proof.
  cbv zeta.
  assert (forall k, length (nd_data (array k (run ops (LogBook.init static_deck))))
                    = length (nd_data (array k (LogBook.init static_deck)))) as Hlen.
  { revert Hops. generalize (LogBook.init static_deck).
    induction ops as [|op ops IH]; intros lb Hops k; [done|].
    simpl in Hops. apply orb_false_iff in Hops as [Hop Hops]. simpl. rewrite IH by done.
    destruct op; try done; cbn [run_op].
    - apply exec_log_array_length.
    - unfold exec. rewrite find_solution_eq. simpl. by rewrite deduce_array. }
  pose proof (Hlen WEAPON) as Hw. pose proof (Hlen CHARACTER) as Hch.
  pose proof (Hlen ROOM) as Hr. simpl in Hw, Hch, Hr.
  split_and!; try done.
  unfold static_deck in Hc. rewrite !elem_of_app, !list_elem_of_fmap in Hc.
  apply eval_log_in_range; unfold index_in_range, fits_C_long;
    destruct Hc as [(n & -> & Hn)|[(n & -> & Hn)|(n & -> & Hn)]]; simpl;
    rewrite ?Hw, ?Hch, ?Hr;
    repeat (apply elem_of_cons in Hn as [->|Hn]; [lia|]); by apply elem_of_nil in Hn.
Qed.

Lemma log_deck_card_returns_witness :
  let ops := [OpLog (Some (room_card 9)); OpLog (Some (weapon_card 6)); OpFindSolution ROOM] in
  let lb := run ops (LogBook.init static_deck) in
  length (nd_data (LogBook.weapons lb)) = 6%nat
  /\ length (nd_data (LogBook.characters lb)) = 6%nat
  /\ length (nd_data (LogBook.rooms lb)) = 9%nat
  /\ eval (LogBook.log (Some (room_card 8))) lb = Ok tt.
Proof.
  apply (log_deck_card_returns
           [OpLog (Some (room_card 9)); OpLog (Some (weapon_card 6)); OpFindSolution ROOM]
           (room_card 8)).
  - reflexivity.
  - apply (bool_decide_unpack _). vm_compute. exact I.
Defined.

(** X26: the ways a ComputerPlayer's [use_roll] fails when it
    carries no remainder: TypeError when the player has neither a room
    nor a position, IndexError when the board answers with no path; in
    both cases the player is unchanged.  Otherwise it returns. *)
Theorem use_roll_errors (P : Paths) (rnd : nat) (roll : Z) (self : Player.t)
    (Hcls : Player.cls self = Player.ComputerPlayerClass)
    (Hrem : Player.remaining_path self = None) :
  (board_paths P self = Raise TypeError
   <-> Player.room self = None /\ Player.position self = None)
  /\ (board_paths P self = Raise TypeError ->
      Player.use_roll P rnd roll self = (Raise TypeError, self))
  /\ (board_paths P self = Ok [] ->
      Player.use_roll P rnd roll self = (Raise IndexError, self))
  /\ (forall paths, board_paths P self = Ok paths -> paths <> [] ->
        exists p, p ∈ paths /\ working_path P rnd self = Ok p
                  /\ eval (Player.use_roll P rnd roll) self <> Raise IndexError
                  /\ eval (Player.use_roll P rnd roll) self <> Raise TypeError).
Proof.
  unfold Player.use_roll, eval, working_path. rewrite Hcls, Hrem.
  unfold Player.ComputerPlayer_use_roll. rewrite Hrem.
  rewrite bool_decide_false by (by intros []).
  fold (board_paths P self). split_and!.
  - unfold board_paths. destruct (Player.room self); [by split; [|intros []]|].
    destruct (Player.position self) as [[]|]; split; try done; by intros [].
  - by intros ->.
  - by intros ->.
  - intros paths -> Hne. simpl.
    destruct (random_choice_spec rnd paths) as (R1 & R2 & R3).
    destruct (random_choice rnd paths) as [p|e] eqn:Hp.
    + exists p. split_and!; [by apply R2|done| |]; by case_decide.
    + pose proof (R3 e eq_refl) as ->. destruct Hne. by apply R1.
Qed.

Lemma use_roll_errors_witness :
  let P := mkPaths (fun _ path => Z.of_nat (length path))
             (fun _ _ _ => []) (fun _ _ => []) in
  let self := Player.mk Player.ComputerPlayerClass (Some (CharacterOf 1)) (Some (7, 7))
                Hand.init (LogBook.init static_deck) None None in
  (board_paths P self = Raise TypeError
   <-> Player.room self = None /\ Player.position self = None)
  /\ (board_paths P self = Raise TypeError ->
      Player.use_roll P 0 4 self = (Raise TypeError, self))
  /\ (board_paths P self = Ok [] ->
      Player.use_roll P 0 4 self = (Raise IndexError, self))
  /\ (forall paths, board_paths P self = Ok paths -> paths <> [] ->
        exists p, p ∈ paths /\ working_path P 0 self = Ok p
                  /\ eval (Player.use_roll P 0 4) self <> Raise IndexError
                  /\ eval (Player.use_roll P 0 4) self <> Raise TypeError).
Proof.
  apply (use_roll_errors
           (mkPaths (fun _ path => Z.of_nat (length path)) (fun _ _ _ => []) (fun _ _ => []))
           0%nat 4).
  - reflexivity.
  - reflexivity.
Defined.

(** X27: a path split over two turns is walked whole: when a
    ComputerPlayer's [use_roll] works on a path longer than the first
    roll, and the second roll covers the distance of what was kept, the
    second [use_roll] returns exactly what was kept, the steps of the
    two returned paths together are the steps of the path in their
    order, both paths lead to its room, and no remainder is left. *)
Theorem use_roll_resume (P : Paths) (rnd1 rnd2 : nat) (roll1 roll2 : Z)
    (self : Player.t) (p : RoomPath.t)
    (Hcls : Player.cls self = Player.ComputerPlayerClass)
    (Hroll : 0 <= roll1)
    (Hp : working_path P rnd1 self = Ok p)
    (Hlong : RoomPath.distance p > roll1)
    (Hrest : path_distance P (RoomPath.room p) (drop (Z.to_nat roll1) (RoomPath.path p))
             <= roll2) :
  exists p1 p2 self1 self2,
    Player.use_roll P rnd1 roll1 self = (Ok p1, self1)
    /\ Player.use_roll P rnd2 roll2 self1 = (Ok p2, self2)
    /\ RoomPath.path p1 ++ RoomPath.path p2 = RoomPath.path p
    /\ RoomPath.room p1 = RoomPath.room p /\ RoomPath.room p2 = RoomPath.room p
    /\ Player.remaining_path self1 = Some p2
    /\ Player.remaining_path self2 = None.
Proof.
  set (p1 := RoomPath_new P (RoomPath.room p) (take (Z.to_nat roll1) (RoomPath.path p))).
  set (p2 := RoomPath_new P (RoomPath.room p) (drop (Z.to_nat roll1) (RoomPath.path p))).
  exists p1, p2, (Player.set_remaining_path (Some p2) self),
    (Player.set_remaining_path None (Player.set_remaining_path (Some p2) self)).
  assert (Player.use_roll P rnd1 roll1 self
          = (Ok p1, Player.set_remaining_path (Some p2) self)) as H1.
  { unfold working_path in Hp. unfold Player.use_roll. rewrite Hcls.
    unfold Player.ComputerPlayer_use_roll.
    destruct (Player.remaining_path self) as [rp|] eqn:Hrem.
    - injection Hp as ->. rewrite bool_decide_true by done.
      unfold Player._use_remaining_roll. rewrite Hrem, decide_True by done.
      by rewrite slice_to_nonneg, slice_from_nonneg.
    - rewrite bool_decide_false by (by intros []).
      unfold board_paths in Hp. rewrite Hp, decide_True by done.
      by rewrite slice_to_nonneg, slice_from_nonneg. }
  split_and!; try done.
  - unfold Player.use_roll. player_fields. rewrite Hcls.
    unfold Player.ComputerPlayer_use_roll. player_fields.
    rewrite bool_decide_true by done. unfold Player._use_remaining_roll. player_fields.
    rewrite decide_False; [done|]. subst p2. unfold RoomPath_new. simpl. lia.
  - apply take_drop.
Qed.

Lemma use_roll_resume_witness :
  let P := mkPaths (fun _ path => Z.of_nat (length path))
             (fun _ _ _ => []) (fun _ _ => []) in
  let p := RoomPath.mk (RoomOf 4)
             [Space 7 8; Space 7 9; Space 7 10; Space 7 11; RoomPosition (RoomOf 4)] 5 in
  let self := Player.mk Player.ComputerPlayerClass (Some (CharacterOf 1)) (Some (7, 7))
                Hand.init (LogBook.init static_deck) None (Some p) in
  exists p1 p2 self1 self2,
    Player.use_roll P 0 3 self = (Ok p1, self1)
    /\ Player.use_roll P 0 2 self1 = (Ok p2, self2)
    /\ RoomPath.path p1 ++ RoomPath.path p2 = RoomPath.path p
    /\ RoomPath.room p1 = RoomPath.room p /\ RoomPath.room p2 = RoomPath.room p
    /\ Player.remaining_path self1 = Some p2
    /\ Player.remaining_path self2 = None.
Proof.
  apply (use_roll_resume
           (mkPaths (fun _ path => Z.of_nat (length path)) (fun _ _ _ => []) (fun _ _ => []))
           0%nat 0%nat 3 2
           (Player.mk Player.ComputerPlayerClass (Some (CharacterOf 1)) (Some (7, 7))
              Hand.init (LogBook.init static_deck) None
              (Some (RoomPath.mk (RoomOf 4)
                 [Space 7 8; Space 7 9; Space 7 10; Space 7 11; RoomPosition (RoomOf 4)] 5)))).
  - reflexivity.
  - lia.
  - reflexivity.
  - simpl. lia.
  - simpl. lia.
Defined.
